(** * snoots: the Gateway and the session Client

    A shallow embedding of [src/gateway/gateway.ts] (class [Gateway]) and of
    the session client (class [Client]), with the properties of their
    specification proved or refuted on the embedding.

    Conventions.
    - A JavaScript value that can reach the code as a decoded response body
      is a [value]: the six JSON shapes plus [undefined].
    - A JavaScript string is a [string]; one character stands for one UTF-16
      code unit, so the code units covered are those below 256.
    - A JavaScript number is a [number]: [NaN] or an integer.  Inside the
      safe range (magnitude at most 2^53 - 1) the arithmetic of doubles on
      integers is exact, and that is the range the statements about
      arithmetic are made for.  Numbers with a fractional part and the
      infinities are not represented.
    - A computation that may throw returns a [completion]. *)

From Stdlib Require Import ZArith String Ascii List Decimal DecimalString DecimalPos.
From stdpp Require Import base option gmap strings list.

#[local] Set Warnings "-register-all".
#[local] Open Scope Z_scope.
#[local] Open Scope string_scope.

(** ** Values and abstract operations of the JavaScript runtime *)

Module JS.

Inductive number : Type :=
| NaN
| Fin (z : Z).

Inductive value : Type :=
| VUndefined
| VNull
| VBool (b : bool)
| VNum (n : number)
| VStr (s : string)
| VArr (l : list value)
| VObj (m : gmap string value).

(** What a [throw] carries. *)
Inductive exn : Type :=
| Error (message : string)        (* [throw new Error(message)] *)
| TypeError                       (* raised by the runtime itself *)
| Thrown (s : string)             (* [throw "..."], a bare string *)
| Rejected (reason : string).     (* a collaborator's promise rejected *)

Inductive completion (A : Type) : Type :=
| Normal (a : A)
| Throw (e : exn).

Arguments Normal {A} a.
Arguments Throw {A} e.

(** Sequencing: a throw in [c] skips the rest.  With these instances the
    notation [x ← c; k] reads as the statements of the source do. *)
#[global] Instance completion_ret : MRet completion := @Normal.

#[global] Instance completion_bind : MBind completion :=
  fun A B (k : A -> completion B) (c : completion A) =>
    match c with
    | Normal a => k a
    | Throw e => Throw e
    end.

(** [typeof v === "object"]: true of [null], of arrays and of objects. *)
Definition typeof_object (v : value) : bool :=
  match v with
  | VNull | VArr _ | VObj _ => true
  | _ => false
  end.

(** [Number::toString] on the numbers of the model: the decimal digits of
    the integer.  That is what the runtime prints for the integers a double
    holds below 10^21, the safe integers among them; from 10^21 on the
    runtime prints an exponent form, which is not modelled. *)
Definition number_to_string (n : number) : string :=
  match n with
  | NaN => "NaN"
  | Fin z => NilZero.string_of_int (Z.to_int z)
  end.

(** [Array.prototype.join] with separator [","], given the elements already
    converted. *)
Fixpoint join (parts : list string) : string :=
  match parts with
  | [] => ""
  | [p] => p
  | p :: rest => p +:+ "," +:+ join rest
  end.

Fixpoint sequence {A} (cs : list (completion A)) : completion (list A) :=
  match cs with
  | [] => Normal []
  | c :: rest => a ← c; r ← sequence rest; Normal (a :: r)
  end.

(** The abstract operation [ToString], as a template literal applies it.
    An array is joined, its [null] and [undefined] elements giving the empty
    string.  An object decoded from JSON inherits [Object.prototype.toString]
    and prints as ["[object Object]"], unless it has a key ["toString"] of
    its own: that value is not callable, [valueOf] returns the object itself,
    and the conversion raises a TypeError. *)
Fixpoint ToString (v : value) : completion string :=
  match v with
  | VUndefined => Normal "undefined"
  | VNull => Normal "null"
  | VBool true => Normal "true"
  | VBool false => Normal "false"
  | VNum n => Normal (number_to_string n)
  | VStr s => Normal s
  | VArr l =>
      parts ← sequence (List.map (fun e =>
                 match e with
                 | VUndefined | VNull => Normal ""
                 | _ => ToString e
                 end) l);
      Normal (join parts)
  | VObj m =>
      match m !! "toString" with
      | Some _ => Throw TypeError
      | None => Normal "[object Object]"
      end
  end.

(** The abstract operation [ToBoolean], as [if (x)] applies it. *)
Definition ToBoolean (v : value) : bool :=
  match v with
  | VUndefined | VNull => false
  | VBool b => b
  | VNum NaN => false
  | VNum (Fin z) => negb (z =? 0)%Z
  | VStr s => negb (String.eqb s "")
  | VArr _ | VObj _ => true
  end.

(** [key in v] for the two keys the gateway tests, ["json"] and ["error"].
    Neither is a property of [Object.prototype] or [Array.prototype], so on
    an object the test is own-key membership and on an array it is false.
    On [null] and on primitives the operator raises a TypeError. *)
Definition HasProperty (key : string) (v : value) : completion bool :=
  match v with
  | VObj m => Normal (bool_decide (is_Some (m !! key)))
  | VArr _ => Normal false
  | _ => Throw TypeError
  end.

(** [v[key]] / [v.key] for the property names the gateway reads:
    ["json"], ["errors"], ["data"], ["length"], ["0"], ["error"] and
    ["error_description"].  Reading a property of [undefined] or [null]
    raises a TypeError; a missing property reads as [undefined]. *)
Definition Get (v : value) (key : string) : completion value :=
  match v with
  | VUndefined | VNull => Throw TypeError
  | VObj m => Normal (default VUndefined (m !! key))
  | VArr l =>
      if String.eqb key "length" then Normal (VNum (Fin (Z.of_nat (List.length l))))
      else if String.eqb key "0" then Normal (List.hd VUndefined l)
      else Normal VUndefined
  | VStr s =>
      if String.eqb key "length" then Normal (VNum (Fin (Z.of_nat (String.length s))))
      else if String.eqb key "0" then
        Normal (match s with
                | EmptyString => VUndefined
                | String c _ => VStr (String c EmptyString)
                end)
      else Normal VUndefined
  | VBool _ | VNum _ => Normal VUndefined
  end.


(** [x > 0].  An array or an object is first converted to a primitive, which
    for a value decoded from JSON is its [ToString]; a string is then turned
    into a number.  The grammar of numeric strings belongs to the runtime, not
    to this repository: whether [StringToNumber s > 0] stays a parameter,
    [string_gt_zero]. *)
Definition gt_zero (string_gt_zero : string -> bool) (x : value) : completion bool :=
  match x with
  | VUndefined | VNull => Normal false
  | VBool b => Normal b
  | VNum NaN => Normal false
  | VNum (Fin z) => Normal (0 <? z)%Z
  | VStr s => Normal (string_gt_zero s)
  | VArr _ | VObj _ => s ← ToString x; Normal (string_gt_zero s)
  end.

(** *** [parseInt] *)

(** White space and line terminators among the code units below 256:
    TAB, LF, VT, FF, CR, SP and NBSP. *)
Definition is_whitespace (c : ascii) : bool :=
  let n := N_of_ascii c in
  ((9 <=? n) && (n <=? 13) || (n =? 32) || (n =? 160))%N.

Fixpoint trim_start (s : string) : string :=
  match s with
  | String c rest => if is_whitespace c then trim_start rest else s
  | EmptyString => s
  end.

(** The value of [c] as a digit: ['0'..'9'] are 0..9 and the letters, in
    either case, count from 10. *)
Definition digit_of (c : ascii) : option Z :=
  let n := Z.of_N (N_of_ascii c) in
  if (48 <=? n)%Z && (n <=? 57)%Z then Some (n - 48)
  else if (97 <=? n)%Z && (n <=? 122)%Z then Some (n - 87)
  else if (65 <=? n)%Z && (n <=? 90)%Z then Some (n - 55)
  else None.

Definition radix_digit (radix : Z) (c : ascii) : option Z :=
  match digit_of c with
  | Some d => if (d <? radix)%Z then Some d else None
  | None => None
  end.

(** The longest prefix of radix-[radix] digits of [s], read as a number;
    [acc] is [None] until a digit has been read. *)
Fixpoint parse_digits (radix : Z) (s : string) (acc : option Z) : option Z :=
  match s with
  | String c rest =>
      match radix_digit radix c with
      | Some d => parse_digits radix rest (Some (default 0 acc * radix + d))
      | None => acc
      end
  | EmptyString => acc
  end.

(** A leading sign, and what follows it. *)
Definition strip_sign (s : string) : Z * string :=
  match s with
  | String "-"%char rest => (-1, rest)
  | String "+"%char rest => (1, rest)
  | _ => (1, s)
  end.

(** The radix, 16 after a [0x] / [0X] prefix and 10 otherwise, and the
    digits to read. *)
Definition strip_prefix (s : string) : Z * string :=
  match s with
  | String "0"%char (String "x"%char rest) => (16, rest)
  | String "0"%char (String "X"%char rest) => (16, rest)
  | _ => (10, s)
  end.

(** [parseInt(input)] with no radix argument: leading white space is
    dropped, then a sign, then a hexadecimal prefix; the digits that follow
    are read up to the first character that is not one, and [NaN] is the
    answer when there is none.  [-0] is [Fin 0]. *)
Definition parseInt (input : string) : number :=
  let '(sign, unsigned) := strip_sign (trim_start input) in
  let '(R, digits) := strip_prefix unsigned in
  match parse_digits R digits None with
  | Some mathInt => Fin (sign * mathInt)
  | None => NaN
  end.

(** [a * b] and [a + b] on numbers. *)
Definition mul (a b : number) : number :=
  match a, b with
  | Fin x, Fin y => Fin (x * y)
  | _, _ => NaN
  end.

Definition add (a b : number) : number :=
  match a, b with
  | Fin x, Fin y => Fin (x + y)
  | _, _ => NaN
  end.

(** The integers a double holds exactly, [Number.isSafeInteger]. *)
Definition is_safe (z : Z) : bool := (Z.abs z <=? 2 ^ 53 - 1)%Z.

(** *** [URLSearchParams] *)

(** [Array.prototype.join] with any separator. *)
Fixpoint join_with (sep : string) (parts : list string) : string :=
  match parts with
  | [] => ""
  | [p] => p
  | p :: rest => p +:+ sep +:+ join_with sep rest
  end.

(** The bytes of the UTF-8 encoding of a code unit below 256. *)
Definition utf8_bytes (c : ascii) : list N :=
  let n := N_of_ascii c in
  if (n <? 128)%N then [n] else [(192 + n / 64)%N; (128 + n mod 64)%N].

(** The bytes that the [application/x-www-form-urlencoded] serializer
    leaves as they are: the ASCII letters and digits, and [*], [-], [.],
    [_]. *)
Definition is_urlencoded_safe (b : N) : bool :=
  ((48 <=? b) && (b <=? 57) || (65 <=? b) && (b <=? 90) || (97 <=? b) && (b <=? 122)
   || (b =? 42) || (b =? 45) || (b =? 46) || (b =? 95))%N.

Definition hex_upper (n : N) : ascii :=
  if (n <? 10)%N then ascii_of_N (48 + n) else ascii_of_N (55 + n).

(** One byte, serialized: itself, [+] for a space, or [%XY]. *)
Definition urlencode_byte (b : N) : string :=
  if is_urlencoded_safe b then String (ascii_of_N b) ""
  else if (b =? 32)%N then "+"
  else String "%"%char (String (hex_upper (b / 16)) (String (hex_upper (b mod 16)) "")).

Fixpoint urlencode (s : string) : string :=
  match s with
  | EmptyString => ""
  | String c rest =>
      List.fold_right (fun b acc => urlencode_byte b +:+ acc) (urlencode rest)
        (utf8_bytes c)
  end.

(** [`${q}`] for a [URLSearchParams] [q], given the pairs appended to it, in
    order. *)
Definition URLSearchParams_toString (q : list (string * string)) : string :=
  join_with "&" (List.map (fun kv => urlencode (fst kv) +:+ "=" +:+ urlencode (snd kv)) q).

(** An object literal. *)
Definition obj (fields : list (string * value)) : value :=
  VObj (list_to_map fields).

End JS.

Import JS.

(** ** [src/gateway/gateway.ts]: the abstract class [Gateway] *)

Module Gateway.

(** [Query] and [Data] are string-keyed objects. *)
Abbreviation Query := (gmap string value).
Abbreviation Data := (gmap string value).

Record RateLimit : Type := { remaining : number; reset : number }.

(** What [auth()] resolves to when it resolves to something: a bearer token
    or a user/password pair. *)
Inductive Auth : Type :=
| Bearer (bearer : string)
| Basic (user pass : string).

(** The one hook the gateway installs, [r => this.updateRatelimit(r)]. *)
Inductive Hook : Type := UpdateRatelimit.

Module GotOptions.
Record t : Type := {
  prefixUrl : string;
  headers : gmap string string;
  searchParams : Query;
  afterResponse : list Hook;
  username : option string;
  password : option string;
  form : option Data;
  json : option Data;
}.
End GotOptions.

(** The response a hook sees.  A header that was not sent reads as
    [undefined], here [None]. *)
Module GotResponse.
Record t : Type := {
  headers : gmap string string;
  body : string;
}.
End GotResponse.

Inductive Method : Type := GET | POST.

Record Request : Type := {
  method : Method;
  url : string;
  options : GotOptions.t;
}.

(** What the transport does with a request: no response at all, or a
    response, on which the hooks run, together with what [.json()] then
    gives (the decoded body, or a rejection for an error status or a body
    that does not decode). *)
Inductive Reply : Type :=
| NoReply (reason : string)
| Replied (response : GotResponse.t) (decoded : completion value).

(** The fields of a gateway. *)
Record t : Type := {
  rateLimit : option RateLimit;
  userAgent : string;
  endpoint : string;
}.

(** A gateway at work: its fields and the requests it has sent. *)
Record State : Type := {
  self : t;
  sent : list Request;
}.

Definition G (A : Type) : Type := State -> completion A * State.

#[global] Instance G_ret : MRet G := fun A a st => (Normal a, st).

#[global] Instance G_bind : MBind G :=
  fun A B (k : A -> G B) (c : G A) st =>
    match c st with
    | (Normal a, st') => k a st'
    | (Throw e, st') => (Throw e, st')
    end.

Definition lift {A} (c : completion A) : G A := fun st => (c, st).

(** [handleError(message, description?)]: never returns. *)
Definition handleError (message description : value) : completion value :=
  m ← ToString message;
  let errorMessage := "Reddit returned an error: " +:+ m in
  if ToBoolean description then
    d ← ToString description;
    Throw (Error (errorMessage +:+ ": " +:+ d))
  else Throw (Error errorMessage).

(** [response.headers[name]]: a string, or [undefined] for a header that
    was not sent. *)
Definition header (response : GotResponse.t) (name : string) : option string :=
  GotResponse.headers response !! name.

(** [parseInt(h as string)]: the cast does nothing at run time, and
    [parseInt] converts its argument to a string first, [undefined] to
    ["undefined"]. *)
Definition parseInt_header (h : option string) : number :=
  parseInt (default "undefined" h).

(** [updateRatelimit(response)], run at clock reading [now]
    ([Date.now()], in milliseconds). *)
Definition updateRatelimit (now : Z) (response : GotResponse.t) (g : t)
  : GotResponse.t * t :=
  let remain := parseInt_header (header response "x-ratelimit-remaining") in
  let reset := mul (parseInt_header (header response "x-ratelimit-reset")) (Fin 1000) in
  (response,
   {| rateLimit := Some {| remaining := remain; reset := add (Fin now) reset |};
      userAgent := userAgent g;
      endpoint := endpoint g |}).

(** The options a write adds to the base options, [{ form: ... }] or
    [{ json: ... }]. *)
Inductive Body : Type :=
| Form (form : Data)
| Json (json : Data).

Section Class.

(** The runtime's comparison of a string with zero (see [JS.gt_zero]). *)
Variable string_gt_zero : string -> bool.

(** The two abstract methods, which each variant supplies. *)
Variable auth : t -> completion (option Auth).
Variable mapPath : string -> string.

(** The transport, [got], and the clock the hook reads. *)
Variable got : Request -> Reply.
Variable now : Z.

(** [unwrap(response)]. *)
Definition unwrap (response : value) : completion value :=
  if negb (typeof_object response) then Normal response
  else
    hasJson ← HasProperty "json" response;
    if hasJson : bool then
      wrapper ← Get response "json";
      errors ← Get wrapper "errors";
      data ← Get wrapper "data";
      len ← Get errors "length";
      nonEmpty ← gt_zero string_gt_zero len;
      if nonEmpty : bool then
        first ← Get errors "0";
        handleError first VUndefined
      else Normal data
    else
      hasError ← HasProperty "error" response;
      if hasError : bool then
        error ← Get response "error";
        error_description ← Get response "error_description";
        handleError error error_description
      else Normal response.

(** [buildOptions(query)]. *)
Definition buildOptions (query : Query) : G GotOptions.t := fun st =>
  let g := self st in
  let options :=
    {| GotOptions.prefixUrl := endpoint g;
       GotOptions.headers := {[ "user-agent" := userAgent g ]};
       GotOptions.searchParams :=
         <[ "api_type" := VStr "json" ]> (<[ "raw_json" := VNum (Fin 1) ]> query);
       GotOptions.afterResponse := [UpdateRatelimit];
       GotOptions.username := None;
       GotOptions.password := None;
       GotOptions.form := None;
       GotOptions.json := None |} in
  match auth g with
  | Throw e => (Throw e, st)
  | Normal None => (Normal options, st)
  | Normal (Some (Bearer bearer)) =>
      (Normal
         {| GotOptions.prefixUrl := GotOptions.prefixUrl options;
            GotOptions.headers :=
              <[ "Authorization" := "bearer " +:+ bearer ]> (GotOptions.headers options);
            GotOptions.searchParams := GotOptions.searchParams options;
            GotOptions.afterResponse := GotOptions.afterResponse options;
            GotOptions.username := GotOptions.username options;
            GotOptions.password := GotOptions.password options;
            GotOptions.form := GotOptions.form options;
            GotOptions.json := GotOptions.json options |}, st)
  | Normal (Some (Basic user pass)) =>
      (Normal
         {| GotOptions.prefixUrl := GotOptions.prefixUrl options;
            GotOptions.headers := GotOptions.headers options;
            GotOptions.searchParams := GotOptions.searchParams options;
            GotOptions.afterResponse := GotOptions.afterResponse options;
            GotOptions.username := Some user;
            GotOptions.password := Some pass;
            GotOptions.form := GotOptions.form options;
            GotOptions.json := GotOptions.json options |}, st)
  end.

Definition run_hook (h : Hook) (rg : GotResponse.t * t) : GotResponse.t * t :=
  match h with
  | UpdateRatelimit => updateRatelimit now (fst rg) (snd rg)
  end.

(** [got.get(url, options).json()] and [got.post(url, options).json()]:
    the request goes out, the hooks of [options] run on the response, and
    the decoded body comes back. *)
Definition send (m : Method) (url : string) (options : GotOptions.t) : G value :=
  fun st =>
    let request := {| method := m; url := url; options := options |} in
    let out := (sent st ++ [request])%list in
    match got request with
    | NoReply reason => (Throw (Rejected reason), {| self := self st; sent := out |})
    | Replied response decoded =>
        let '(_, g) :=
          List.fold_left (fun rg h => run_hook h rg)
            (GotOptions.afterResponse options) (response, self st) in
        (decoded, {| self := g; sent := out |})
    end.

(** [get(path, query)]. *)
Definition get (path : string) (query : Query) : G value :=
  options ← buildOptions query;
  response ← send GET (mapPath path) options;
  lift (unwrap response).

(** [{ ...baseOptions, ...options }]. *)
Definition merge (baseOptions : GotOptions.t) (options : Body) : GotOptions.t :=
  {| GotOptions.prefixUrl := GotOptions.prefixUrl baseOptions;
     GotOptions.headers := GotOptions.headers baseOptions;
     GotOptions.searchParams := GotOptions.searchParams baseOptions;
     GotOptions.afterResponse := GotOptions.afterResponse baseOptions;
     GotOptions.username := GotOptions.username baseOptions;
     GotOptions.password := GotOptions.password baseOptions;
     GotOptions.form :=
       match options with Form f => Some f | Json _ => GotOptions.form baseOptions end;
     GotOptions.json :=
       match options with Json j => Some j | Form _ => GotOptions.json baseOptions end |}.

(** [doPost(path, options, query)]. *)
Definition doPost (path : string) (options : Body) (query : Query) : G value :=
  baseOptions ← buildOptions query;
  response ← send POST (mapPath path) (merge baseOptions options);
  lift (unwrap response).

(** [post(path, form, query)]: [{ api_type: "json", ...form }] keeps the
    keys of [form], [api_type] among them, and adds [api_type] when [form]
    has none. *)
Definition post (path : string) (form : Data) (query : Query) : G value :=
  let formOptions := Form (form ∪ {[ "api_type" := VStr "json" ]}) in
  doPost path formOptions query.

(** [postJson(path, json, query)]. *)
Definition postJson (path : string) (json : Data) (query : Query) : G value :=
  let jsonOptions := Json (json ∪ {[ "api_type" := VStr "json" ]}) in
  doPost path jsonOptions query.

End Class.

End Gateway.

(** ** The session client: the class [Client] *)

Module Client.

Import Gateway (Query, Data).

Record Credentials : Type := { clientId : string; clientSecret : string }.

(** [UsernameAuth | TokenAuth].  [fromAuthCode] stores [token.refresh!]
    whatever it is, so the refresh token of a [TokenAuth] can be
    [undefined] at run time: it is an option here. *)
Inductive Auth : Type :=
| UsernameAuth (username password : string)
| TokenAuth (refreshToken : option string).

(** A token: the client reads [access] and [refresh]; the expiry instant is
    the third attribute the data model gives it. *)
Record Token : Type := {
  access : string;
  refresh : option string;
  expiration : Z;
}.

(** What the authenticated gateway is called with. *)
Module OauthOpts.
Record t : Type := { token : string; userAgent : string }.
End OauthOpts.

Module ClientOptions.
Record t : Type := {
  auth : option Auth;
  creds : option Credentials;
  userAgent : string;
}.
End ClientOptions.

(** The fields of a client (the four resource controls hold no state of
    their own and are left out). *)
Record t : Type := {
  auth : option Auth;
  creds : option Credentials;
  token : option Token;
  userAgent : string;
}.

(** The helpers the client calls are imported from modules outside this
    development ([./helper/accessToken], [./helper/api/oauth],
    [./helper/api/anon]).  Each call the client makes is recorded, with its
    arguments. *)
Inductive Op : Type := Get | Post | PostJson.

Inductive Call : Type :=
| UpdateAccessToken (userAgent : string) (token : option Token)
    (creds : Credentials) (auth : option Auth)
| TokenFromCode (code : string) (creds : Credentials) (userAgent redirectUri : string)
| Oauth (op : Op) (opts : OauthOpts.t) (path : string) (data : option Data) (query : Query)
| Anon (op : Op) (userAgent : string) (path : string) (data : option Data) (query : Query).

(** The two gateways a request can go through. *)
Inductive Variant : Type := Authenticated | Anonymous.

Definition variant_of (c : Call) : option Variant :=
  match c with
  | Oauth _ _ _ _ _ => Some Authenticated
  | Anon _ _ _ _ _ => Some Anonymous
  | UpdateAccessToken _ _ _ _ | TokenFromCode _ _ _ _ => None
  end.

(** A request as a resource control makes it: the method and its
    arguments. *)
Inductive Invocation : Type :=
| InvokeGet (path : string) (query : Query)
| InvokePost (path : string) (data : Data) (query : Query)
| InvokePostJson (path : string) (data : Data) (query : Query).

Definition invocation_op (i : Invocation) : Op :=
  match i with
  | InvokeGet _ _ => Get
  | InvokePost _ _ _ => Post
  | InvokePostJson _ _ _ => PostJson
  end.

Definition invocation_path (i : Invocation) : string :=
  match i with
  | InvokeGet path _ | InvokePost path _ _ | InvokePostJson path _ _ => path
  end.

Definition invocation_data (i : Invocation) : option Data :=
  match i with
  | InvokeGet _ _ => None
  | InvokePost _ data _ | InvokePostJson _ data _ => Some data
  end.

Definition invocation_query (i : Invocation) : Query :=
  match i with
  | InvokeGet _ query | InvokePost _ _ query | InvokePostJson _ _ query => query
  end.

(** The calls that go to the token manager. *)
Definition is_token_call (c : Call) : bool :=
  match c with
  | UpdateAccessToken _ _ _ _ | TokenFromCode _ _ _ _ => true
  | Oauth _ _ _ _ _ | Anon _ _ _ _ _ => false
  end.

(** A client at work: its fields and the calls made so far, oldest first. *)
Record State : Type := {
  this : t;
  calls : list Call;
}.

Definition M (A : Type) : Type := State -> completion A * State.

#[global] Instance M_ret : MRet M := fun A a st => (Normal a, st).

#[global] Instance M_bind : MBind M :=
  fun A B (k : A -> M B) (c : M A) st =>
    match c st with
    | (Normal a, st') => k a st'
    | (Throw e, st') => (Throw e, st')
    end.

Definition throw {A} (e : exn) : M A := fun st => (Throw e, st).
Definition read : M t := fun st => (Normal (this st), st).

Definition set_auth (a : option Auth) : M unit := fun st =>
  (Normal tt,
   {| this := {| auth := a; creds := creds (this st); token := token (this st);
                 userAgent := userAgent (this st) |};
      calls := calls st |}).

Definition set_token (tok : option Token) : M unit := fun st =>
  (Normal tt,
   {| this := {| auth := auth (this st); creds := creds (this st); token := tok;
                 userAgent := userAgent (this st) |};
      calls := calls st |}).

(** [new Client(opts)]. *)
Definition new (opts : ClientOptions.t) : t :=
  {| auth := ClientOptions.auth opts;
     creds := ClientOptions.creds opts;
     token := None;
     userAgent := ClientOptions.userAgent opts |}.

(** The static [makeAuthUrl(clientId, scopes, redirectUri, state, temporary)];
    an argument left out is [None] and takes its default. *)
Definition makeAuthUrl (clientId : string) (scopes : list string) (redirectUri : string)
  (state : option string) (temporary : option bool) : string :=
  let state := default "snoots" state in
  let temporary := default false temporary in
  let q :=
    [("client_id", clientId);
     ("response_type", "code");
     ("state", state);
     ("redirect_uri", redirectUri);
     ("duration", if temporary : bool then "temporary" else "permanent");
     ("scope", join_with " " scopes)] in
  "https://www.reddit.com/api/v1/authorize?" +:+ URLSearchParams_toString q.

Section Collaborators.

(** What the helpers answer: a token for the two token calls, a decoded
    body for the gateway calls, or a rejection.  The answer may depend on
    the call and on every call made before it. *)
Variable issue : Call -> list Call -> completion Token.
Variable answer : Call -> list Call -> completion value.

Definition call_token (c : Call) : M Token := fun st =>
  (issue c (calls st), {| this := this st; calls := (calls st ++ [c])%list |}).

Definition call_gateway (c : Call) : M value := fun st =>
  (answer c (calls st), {| this := this st; calls := (calls st ++ [c])%list |}).

(** The protected method [updateAccessToken()]. *)
Definition updateAccessToken : M unit :=
  c ← read;
  match creds c with
  | None => throw (Thrown "No creds")
  | Some cr =>
      tok ← call_token (UpdateAccessToken (userAgent c) (token c) cr (auth c));
      set_token (Some tok)
  end.

(** [oAuth()].  [this.token!.access] on a missing token would be a
    TypeError. *)
Definition oAuth : M OauthOpts.t :=
  _ ← updateAccessToken;
  c ← read;
  match token c with
  | Some tok => mret {| OauthOpts.token := access tok; OauthOpts.userAgent := userAgent c |}
  | None => throw TypeError
  end.

(** [reAuth(auth)]. *)
Definition reAuth (a : Auth) : M unit :=
  _ ← set_auth (Some a);
  _ ← set_token None;
  updateAccessToken.

(** [getRefreshToken()]: [this.token?.refresh ?? null]. *)
Definition getRefreshToken (c : t) : option string :=
  match token c with
  | Some tok => refresh tok
  | None => None
  end.

(** [get(path, query)]. *)
Definition get (path : string) (query : Query) : M value :=
  c ← read;
  match creds c with
  | Some _ => opts ← oAuth; call_gateway (Oauth Get opts path None query)
  | None => call_gateway (Anon Get (userAgent c) path None query)
  end.

(** [post(path, data, query)]. *)
Definition post (path : string) (data : Data) (query : Query) : M value :=
  c ← read;
  match creds c with
  | Some _ => opts ← oAuth; call_gateway (Oauth Post opts path (Some data) query)
  | None => call_gateway (Anon Post (userAgent c) path (Some data) query)
  end.

(** [postJson(path, data, query)]. *)
Definition postJson (path : string) (data : Data) (query : Query) : M value :=
  c ← read;
  match creds c with
  | Some _ => opts ← oAuth; call_gateway (Oauth PostJson opts path (Some data) query)
  | None => call_gateway (Anon PostJson (userAgent c) path (Some data) query)
  end.

(** One request through the client, whichever the method. *)
Definition invoke (i : Invocation) : M value :=
  match i with
  | InvokeGet path query => get path query
  | InvokePost path data query => post path data query
  | InvokePostJson path data query => postJson path data query
  end.

(** The static [fromAuthCode(opts, code, redirectUri)]: it runs on a
    client of its own making, which it returns. *)
Definition fromAuthCode (opts : ClientOptions.t) (code redirectUri : string)
  (log : list Call) : completion t * list Call :=
  match ClientOptions.creds opts with
  | None => (Throw (Thrown "No creds"), log)
  | Some cr =>
      let client := new opts in
      let run : M t :=
        tok ← call_token (TokenFromCode code cr (userAgent client) redirectUri);
        _ ← set_token (Some tok);
        _ ← set_auth (Some (TokenAuth (refresh tok)));
        read in
      let '(r, st) := run {| this := client; calls := log |} in
      (r, calls st)
  end.

End Collaborators.

End Client.

(** ** [src/controls/voteable.ts]: the class [VoteableControls]

    The controls post through the gateway they hold.  [reply] is left out:
    it goes through [replyImpl] and [fromRaw], which belong to other
    classes. *)

Module VoteableControls.

Import Gateway.

Section Controls.

(** [this.namespace(id)], inherited from the base controls. *)
Variable namespace : string -> string.

(** [this.gateway]. *)
Variable string_gt_zero : string -> bool.
Variable auth : Gateway.t -> completion (option Gateway.Auth).
Variable mapPath : string -> string.
Variable got : Request -> Reply.
Variable now : Z.

(** [await this.gateway.post(path, data)], the value that comes back being
    dropped. *)
Definition gateway_post (path : string) (data : Data) : G unit :=
  _ ← Gateway.post string_gt_zero auth mapPath got now path data ∅;
  mret tt.

(** [inboxReplies(id, enabled)]. *)
Definition inboxReplies (id : string) (enabled : bool) : G unit :=
  let req : Data := <[ "id" := VStr (namespace id) ]> (<[ "state" := VBool enabled ]> ∅) in
  gateway_post "api/sendreplies" req.

Definition enableInboxReplies (id : string) : G unit := inboxReplies id true.
Definition disableInboxReplies (id : string) : G unit := inboxReplies id false.

(** [vote(id, vote)], [vote] being [1], [0] or [-1]. *)
Definition vote (id : string) (v : Z) : G unit :=
  gateway_post "api/vote"
    (<[ "id" := VStr (namespace id) ]> (<[ "dir" := VNum (Fin v) ]> ∅)).

Definition upvote (id : string) : G unit := vote id 1.
Definition unvote (id : string) : G unit := vote id 0.
Definition downvote (id : string) : G unit := vote id (-1).

Definition save (id : string) : G unit :=
  gateway_post "api/save" (<[ "id" := VStr (namespace id) ]> ∅).

Definition unsave (id : string) : G unit :=
  gateway_post "api/unsave" (<[ "id" := VStr (namespace id) ]> ∅).

(** [edit(id, newText)]. *)
Definition edit (id newText : string) : G unit :=
  let body : Data :=
    <[ "thing_id" := VStr (namespace id) ]> (<[ "text" := VStr newText ]> ∅) in
  gateway_post "api/editusertext" body.

(** [delete(id)]. *)
Definition delete (id : string) : G unit :=
  gateway_post "api/del" (<[ "id" := VStr (namespace id) ]> ∅).

Definition approve (id : string) : G unit :=
  gateway_post "api/approve" (<[ "id" := VStr (namespace id) ]> ∅).

(** [remove(id, spam = false)]. *)
Definition remove (id : string) (spam : option bool) : G unit :=
  let spam := default false spam in
  gateway_post "api/remove"
    (<[ "id" := VStr (namespace id) ]> (<[ "spam" := VBool spam ]> ∅)).

Definition ignoreFutureReports (id : string) : G unit :=
  gateway_post "api/ignore_reports" (<[ "id" := VStr (namespace id) ]> ∅).

Definition unignoreFutureReports (id : string) : G unit :=
  gateway_post "api/unignore_reports" (<[ "id" := VStr (namespace id) ]> ∅).

(** [gild(id)]: the item goes into the path and the payload is empty. *)
Definition gild (id : string) : G unit :=
  gateway_post ("api/v1/gold/gild/" +:+ namespace id) ∅.

End Controls.

(** A call of one of the public methods. *)
Inductive Action : Type :=
| EnableInboxReplies (id : string)
| DisableInboxReplies (id : string)
| Upvote (id : string)
| Unvote (id : string)
| Downvote (id : string)
| Save (id : string)
| Unsave (id : string)
| Edit (id newText : string)
| Delete (id : string)
| Approve (id : string)
| Remove (id : string) (spam : option bool)
| IgnoreFutureReports (id : string)
| UnignoreFutureReports (id : string)
| Gild (id : string).

Section Perform.

Variable namespace : string -> string.
Variable string_gt_zero : string -> bool.
Variable auth : Gateway.t -> completion (option Gateway.Auth).
Variable mapPath : string -> string.
Variable got : Request -> Reply.
Variable now : Z.

Definition perform (a : Action) : G unit :=
  match a with
  | EnableInboxReplies id =>
      enableInboxReplies namespace string_gt_zero auth mapPath got now id
  | DisableInboxReplies id =>
      disableInboxReplies namespace string_gt_zero auth mapPath got now id
  | Upvote id => upvote namespace string_gt_zero auth mapPath got now id
  | Unvote id => unvote namespace string_gt_zero auth mapPath got now id
  | Downvote id => downvote namespace string_gt_zero auth mapPath got now id
  | Save id => save namespace string_gt_zero auth mapPath got now id
  | Unsave id => unsave namespace string_gt_zero auth mapPath got now id
  | Edit id newText => edit namespace string_gt_zero auth mapPath got now id newText
  | Delete id => delete namespace string_gt_zero auth mapPath got now id
  | Approve id => approve namespace string_gt_zero auth mapPath got now id
  | Remove id spam => remove namespace string_gt_zero auth mapPath got now id spam
  | IgnoreFutureReports id =>
      ignoreFutureReports namespace string_gt_zero auth mapPath got now id
  | UnignoreFutureReports id =>
      unignoreFutureReports namespace string_gt_zero auth mapPath got now id
  | Gild id => gild namespace string_gt_zero auth mapPath got now id
  end.

End Perform.

End VoteableControls.

(** ** Vocabulary of the properties *)

(** The number a decimal numeral denotes, most significant digit first,
    continuing from [acc]. *)
Fixpoint uint_value (d : uint) (acc : Z) : Z :=
  match d with
  | Nil => acc
  | D0 d => uint_value d (acc * 10 + 0)
  | D1 d => uint_value d (acc * 10 + 1)
  | D2 d => uint_value d (acc * 10 + 2)
  | D3 d => uint_value d (acc * 10 + 3)
  | D4 d => uint_value d (acc * 10 + 4)
  | D5 d => uint_value d (acc * 10 + 5)
  | D6 d => uint_value d (acc * 10 + 6)
  | D7 d => uint_value d (acc * 10 + 7)
  | D8 d => uint_value d (acc * 10 + 8)
  | D9 d => uint_value d (acc * 10 + 9)
  end.

(** The decimal rendering of an integer, as [Number::toString] gives it. *)
Definition decimal (z : Z) : string := number_to_string (Fin z).

(** A header from which [parseInt] gets no number: one that was not sent,
    or one that does not start with a number. *)
Definition unparsed (h : option string) : Prop := Gateway.parseInt_header h = NaN.

(** The requests that running [run] from [st] adds to those already sent. *)
Definition new_requests {A} (run : Gateway.G A) (st : Gateway.State)
  : list Gateway.Request :=
  drop (List.length (Gateway.sent st)) (Gateway.sent (snd (run st))).

(** The query string of [request] is the caller's [query] with
    [raw_json=1] and [api_type=json] set. *)
Definition query_augmented (query : Gateway.Query) (request : Gateway.Request) : Prop :=
  let searchParams := Gateway.GotOptions.searchParams (Gateway.options request) in
  searchParams !! "raw_json" = Some (VNum (Fin 1)) /\
  searchParams !! "api_type" = Some (VStr "json") /\
  forall key, key <> "raw_json" -> key <> "api_type" ->
    searchParams !! key = query !! key.

(** The body [body] is the caller's [payload] with an [api_type] field: the
    caller's own when [payload] has one, ["json"] otherwise. *)
Definition payload_marked (payload body : Gateway.Data) : Prop :=
  body !! "api_type" = Some (default (VStr "json") (payload !! "api_type")) /\
  forall key, key <> "api_type" -> body !! key = payload !! key.

(** The calls that running [run] from [st] adds to those already made, and
    the gateways among them. *)
Definition new_calls {A} (run : Client.M A) (st : Client.State) : list Client.Call :=
  drop (List.length (Client.calls st)) (Client.calls (snd (run st))).

Definition gateways_used {A} (run : Client.M A) (st : Client.State)
  : list Client.Variant :=
  omap Client.variant_of (new_calls run st).

(** How many times the character [c] occurs in [s]. *)
Fixpoint occurrences (c : ascii) (s : string) : nat :=
  match s with
  | EmptyString => 0%nat
  | String x rest => ((if Ascii.eqb x c then 1 else 0) + occurrences c rest)%nat
  end.

(** The characters a serialized query component is made of. *)
Definition is_component_char (c : ascii) : bool :=
  is_urlencoded_safe (N_of_ascii c) || Ascii.eqb c "%" || Ascii.eqb c "+".

Fixpoint all_chars (P : ascii -> bool) (s : string) : bool :=
  match s with
  | EmptyString => true
  | String x rest => P x && all_chars P rest
  end.

(** The payload a voteable action posts, before the gateway marks it, and
    the path it posts to. *)
Definition action_path (namespace : string -> string) (a : VoteableControls.Action)
  : string :=
  match a with
  | VoteableControls.EnableInboxReplies _
  | VoteableControls.DisableInboxReplies _ => "api/sendreplies"
  | VoteableControls.Upvote _ | VoteableControls.Unvote _
  | VoteableControls.Downvote _ => "api/vote"
  | VoteableControls.Save _ => "api/save"
  | VoteableControls.Unsave _ => "api/unsave"
  | VoteableControls.Edit _ _ => "api/editusertext"
  | VoteableControls.Delete _ => "api/del"
  | VoteableControls.Approve _ => "api/approve"
  | VoteableControls.Remove _ _ => "api/remove"
  | VoteableControls.IgnoreFutureReports _ => "api/ignore_reports"
  | VoteableControls.UnignoreFutureReports _ => "api/unignore_reports"
  | VoteableControls.Gild id => "api/v1/gold/gild/" +:+ namespace id
  end.

(** The item an action is about. *)
Definition action_id (a : VoteableControls.Action) : string :=
  match a with
  | VoteableControls.EnableInboxReplies id | VoteableControls.DisableInboxReplies id
  | VoteableControls.Upvote id | VoteableControls.Unvote id
  | VoteableControls.Downvote id | VoteableControls.Save id
  | VoteableControls.Unsave id | VoteableControls.Edit id _
  | VoteableControls.Delete id | VoteableControls.Approve id
  | VoteableControls.Remove id _ | VoteableControls.IgnoreFutureReports id
  | VoteableControls.UnignoreFutureReports id | VoteableControls.Gild id => id
  end.

(** What may follow a number in a header for the number still to be read:
    nothing, or a character that is neither a decimal digit nor the [x] of a
    hexadecimal prefix. *)
Definition ends_number (tail : string) : bool :=
  match tail with
  | EmptyString => true
  | String c _ =>
      match radix_digit 10 c with
      | Some _ => false
      | None => negb (Ascii.eqb c "x") && negb (Ascii.eqb c "X")
      end
  end.

(** What the code that holds a client does with it, one step after the
    other: a request, or a re-authorization.  A step that throws leaves the
    client as the throw found it, and the next step goes on from there. *)
Inductive ClientStep : Type :=
| Request (i : Client.Invocation)
| ReAuth (a : Client.Auth).

Definition client_step
  (issue : Client.Call -> list Client.Call -> completion Client.Token)
  (answer : Client.Call -> list Client.Call -> completion value)
  (step : ClientStep) (st : Client.State) : Client.State :=
  match step with
  | Request i => snd (Client.invoke issue answer i st)
  | ReAuth a => snd (Client.reAuth issue a st)
  end.

Definition client_steps
  (issue : Client.Call -> list Client.Call -> completion Client.Token)
  (answer : Client.Call -> list Client.Call -> completion value)
  (steps : list ClientStep) (st : Client.State) : Client.State :=
  List.fold_left (fun st step => client_step issue answer step st) steps st.

(** The call to the token manager that a request from [st] starts with, and
    the gateway calls of a request. *)
Definition token_call (st : Client.State) (cr : Client.Credentials) : Client.Call :=
  Client.UpdateAccessToken (Client.userAgent (Client.this st))
    (Client.token (Client.this st)) cr (Client.auth (Client.this st)).

Definition anon_call (i : Client.Invocation) (st : Client.State) : Client.Call :=
  Client.Anon (Client.invocation_op i) (Client.userAgent (Client.this st))
    (Client.invocation_path i) (Client.invocation_data i) (Client.invocation_query i).

Definition oauth_call (i : Client.Invocation) (st : Client.State) (tok : Client.Token)
  : Client.Call :=
  Client.Oauth (Client.invocation_op i)
    {| Client.OauthOpts.token := Client.access tok;
       Client.OauthOpts.userAgent := Client.userAgent (Client.this st) |}
    (Client.invocation_path i) (Client.invocation_data i) (Client.invocation_query i).

(** A call that a client with the credentials [cr] may make: without
    credentials, calls to the anonymous gateway only; with credentials, none
    to the anonymous gateway. *)
Definition call_fits (cr : option Client.Credentials) (c : Client.Call) : Prop :=
  match cr with
  | None => Client.variant_of c = Some Client.Anonymous
  | Some _ => Client.variant_of c <> Some Client.Anonymous
  end.

(** The characters the query of an authorization URL is made of: those of
    the serialized components, and the [&] and [=] that hold them together. *)
Definition is_query_char (c : ascii) : bool :=
  is_component_char c || Ascii.eqb c "&" || Ascii.eqb c "=".

(** ** Sample surroundings

    Stand-ins for what lies outside the two classes, for running them on
    sample inputs. *)

Module Sample.

(** A runtime in which no string that is compared with zero is positive.
    No sample reaches the comparison of a string. *)
Definition string_gt_zero (s : string) : bool := false.

(** An anonymous gateway without credentials, on a network that is down. *)
Definition auth (g : Gateway.t) : completion (option Gateway.Auth) := Normal None.
Definition mapPath (path : string) : string := path.
Definition got (request : Gateway.Request) : Gateway.Reply := Gateway.NoReply "offline".

Definition gateway : Gateway.State :=
  {| Gateway.self :=
       {| Gateway.rateLimit :=
            Some {| Gateway.remaining := Fin 59; Gateway.reset := Fin 1700000600000 |};
          Gateway.userAgent := "snoots-test";
          Gateway.endpoint := "https://www.reddit.com" |};
     Gateway.sent := [] |}.

Definition response (headers : list (string * string)) : Gateway.GotResponse.t :=
  {| Gateway.GotResponse.headers := list_to_map headers;
     Gateway.GotResponse.body := "{}" |}.

(** A token manager that always grants the same token, and gateways that
    always answer [null]. *)
Definition granted : Client.Token :=
  {| Client.access := "access-1"; Client.refresh := Some "refresh-1";
     Client.expiration := 1700003600000 |}.

Definition issue (c : Client.Call) (before : list Client.Call)
  : completion Client.Token := Normal granted.

Definition answer (c : Client.Call) (before : list Client.Call)
  : completion value := Normal VNull.

Definition credentials : Client.Credentials :=
  {| Client.clientId := "id"; Client.clientSecret := "secret" |}.

(** A client with credentials, logged in with a password, which holds a
    token from an earlier exchange. *)
Definition earlier : Client.Token :=
  {| Client.access := "access-0"; Client.refresh := None;
     Client.expiration := 1700000000000 |}.

Definition client : Client.State :=
  {| Client.this :=
       {| Client.auth := Some (Client.UsernameAuth "user" "password");
          Client.creds := Some credentials;
          Client.token := Some earlier;
          Client.userAgent := "snoots-test" |};
     Client.calls := [] |}.

End Sample.

(** Further stand-ins: a gateway whose [auth()] rejects, one that gives a
    bearer token, a transport that answers with an error envelope and
    rate-limit headers, a token manager that refuses, a client without
    credentials, and the namespace of the comment controls. *)
Module Scenario.

Definition auth_rejecting (g : Gateway.t) : completion (option Gateway.Auth) :=
  Throw (Rejected "token refused").

Definition auth_bearer (g : Gateway.t) : completion (option Gateway.Auth) :=
  Normal (Some (Gateway.Bearer "access-1")).

Definition envelope : value :=
  obj [("json", obj [("errors", VArr [VStr "RATELIMIT"]); ("data", VNull)])].

Definition reply : Gateway.GotResponse.t :=
  Sample.response [("x-ratelimit-remaining", "598.0"); ("x-ratelimit-reset", " 42")].

Definition got_replying (request : Gateway.Request) : Gateway.Reply :=
  Gateway.Replied reply (Normal envelope).

(** The options [buildOptions] makes of an empty query on the sample
    gateway, without credentials. *)
Definition base_options : Gateway.GotOptions.t :=
  {| Gateway.GotOptions.prefixUrl := "https://www.reddit.com";
     Gateway.GotOptions.headers := {[ "user-agent" := "snoots-test" ]};
     Gateway.GotOptions.searchParams :=
       <[ "api_type" := VStr "json" ]> (<[ "raw_json" := VNum (Fin 1) ]> ∅);
     Gateway.GotOptions.afterResponse := [Gateway.UpdateRatelimit];
     Gateway.GotOptions.username := None;
     Gateway.GotOptions.password := None;
     Gateway.GotOptions.form := None;
     Gateway.GotOptions.json := None |}.

Definition namespace (id : string) : string := "t1_" +:+ id.

(** The request an upvote of [abc] sends. *)
Definition upvote_request : Gateway.Request :=
  {| Gateway.method := Gateway.POST;
     Gateway.url := "api/vote";
     Gateway.options :=
       Gateway.merge base_options
         (Gateway.Form
            (<[ "id" := VStr "t1_abc" ]> (<[ "dir" := VNum (Fin 1) ]> ∅)
             ∪ {[ "api_type" := VStr "json" ]})) |}.

Definition issue_rejecting (c : Client.Call) (before : list Client.Call)
  : completion Client.Token := Throw (Rejected "invalid_grant").

Definition anonymous_client : Client.State :=
  {| Client.this :=
       Client.new {| Client.ClientOptions.auth := None;
                     Client.ClientOptions.creds := None;
                     Client.ClientOptions.userAgent := "snoots-test" |};
     Client.calls := [] |}.

End Scenario.

(** * Properties *)

(** One step of a computation in [completion]: the bind of a result that is
    known. *)
Ltac step := cbn [mbind completion_bind].

(** ** Membership and property reads on objects *)

Lemma HasProperty_present (m : gmap string value) (key : string) (v : value) :
  m !! key = Some v -> HasProperty key (VObj m) = Normal true.
Proof.
  intros Hkey. unfold HasProperty. f_equal.
  apply bool_decide_eq_true_2. rewrite Hkey. eauto.
Qed.

Lemma HasProperty_absent (m : gmap string value) (key : string) :
  m !! key = None -> HasProperty key (VObj m) = Normal false.
Proof.
  intros Hkey. unfold HasProperty. f_equal.
  apply bool_decide_eq_false_2. rewrite Hkey. intros [x Hx]. discriminate.
Qed.

Lemma HasProperty_false_inv (key : string) (v : value) :
  HasProperty key v = Normal false ->
  (exists l, v = VArr l) \/ (exists m, v = VObj m /\ m !! key = None).
Proof.
  destruct v as [| | b | n | s | l | m]; simpl; try discriminate.
  - intros _. left. eauto.
  - intros H. right. exists m. split; [reflexivity |].
    injection H as H. apply bool_decide_eq_false_1 in H.
    destruct (m !! key) eqn:E; [| reflexivity].
    exfalso. apply H. eauto.
Qed.

Lemma Get_obj (m : gmap string value) (key : string) (v : value) :
  m !! key = Some v -> Get (VObj m) key = Normal v.
Proof. intros Hkey. simpl. rewrite Hkey. reflexivity. Qed.

Lemma append_assoc (a b c : string) : (a +:+ b) +:+ c = a +:+ b +:+ c.
Proof.
  induction a as [| x a IH]; [reflexivity |].
  change (String x ((a +:+ b) +:+ c) = String x (a +:+ b +:+ c)).
  rewrite IH. reflexivity.
Qed.

(** ** [unwrap] *)

Section UnwrapFacts.

Variable string_gt_zero : string -> bool.

#[local] Abbreviation unwrap := (Gateway.unwrap string_gt_zero).

Lemma unwrap_wrapper_step (m w : gmap string value) (errors : list value) :
  m !! "json" = Some (VObj w) ->
  w !! "errors" = Some (VArr errors) ->
  unwrap (VObj m) =
    if (0 <? Z.of_nat (List.length errors))%Z
    then Gateway.handleError (List.hd VUndefined errors) VUndefined
    else Normal (default VUndefined (w !! "data")).
Proof.
  intros Hjson Herrors. unfold Gateway.unwrap.
  cbn [typeof_object negb].
  rewrite (HasProperty_present _ _ _ Hjson). step.
  rewrite (Get_obj _ _ _ Hjson). step.
  rewrite (Get_obj _ _ _ Herrors). step.
  reflexivity.
Qed.

(** C1.  A body with the wrapper key ["json"] whose wrapper has the array
    [errors]: when [errors] is empty, [unwrap] returns what the [data]
    slot holds ([undefined] if the slot is missing); when it is not,
    [unwrap] throws the error that [handleError] builds from the first
    entry alone, with message ["Reddit returned an error: "] followed by
    that entry as a string. *)
Theorem unwrap_result_wrapper (m w : gmap string value) (errors : list value) :
  m !! "json" = Some (VObj w) ->
  w !! "errors" = Some (VArr errors) ->
  match errors with
  | [] => unwrap (VObj m) = Normal (default VUndefined (w !! "data"))
  | first :: _ =>
      unwrap (VObj m) = Gateway.handleError first VUndefined /\
      forall s, ToString first = Normal s ->
        unwrap (VObj m) = Throw (Error ("Reddit returned an error: " +:+ s))
  end.
Proof.
  intros Hjson Herrors.
  rewrite (unwrap_wrapper_step m w errors Hjson Herrors).
  destruct errors as [| first rest].
  - reflexivity.
  - replace (0 <? Z.of_nat (List.length (first :: rest)))%Z with true
      by (symmetry; apply Z.ltb_lt; simpl List.length; lia).
    split; [reflexivity |].
    intros s Hs. cbn [List.hd]. unfold Gateway.handleError.
    rewrite Hs. reflexivity.
Qed.

(** C2, as amended.  A body without the wrapper key and with a top-level
    [error] field throws ["Reddit returned an error: <error>"] when
    [error_description] is missing or falsy (the empty string, among
    others), and ["Reddit returned an error: <error>: <description>"] when
    it is present and truthy. *)
Theorem unwrap_top_level_error (m : gmap string value) (error : value) (e : string) :
  m !! "json" = None ->
  m !! "error" = Some error ->
  ToString error = Normal e ->
  match m !! "error_description" with
  | None => unwrap (VObj m) = Throw (Error ("Reddit returned an error: " +:+ e))
  | Some description =>
      if ToBoolean description
      then forall d, ToString description = Normal d ->
             unwrap (VObj m)
             = Throw (Error ("Reddit returned an error: " +:+ e +:+ ": " +:+ d))
      else unwrap (VObj m) = Throw (Error ("Reddit returned an error: " +:+ e))
  end.
Proof.
  intros Hjson Herror He.
  assert (Hstep : unwrap (VObj m) =
            Gateway.handleError error (default VUndefined (m !! "error_description"))).
  { unfold Gateway.unwrap. cbn [typeof_object negb].
    rewrite (HasProperty_absent _ _ Hjson). step.
    rewrite (HasProperty_present _ _ _ Herror). step.
    rewrite (Get_obj _ _ _ Herror). step.
    reflexivity. }
  rewrite Hstep. unfold Gateway.handleError. rewrite He.
  step.
  destruct (m !! "error_description") as [description |]; simpl default.
  - destruct (ToBoolean description).
    + intros d Hd. rewrite Hd. step.
      rewrite append_assoc. reflexivity.
    + reflexivity.
  - reflexivity.
Qed.

(** C7, as amended.  [unwrap] returns the body as it is when the body is
    not of type ["object"] (undefined, a boolean, a number, a string), and
    when it is an object or an array, hence not [null], on which both
    membership tests, for ["json"] and for ["error"], answer false.  These
    are all the bodies but [null] and the objects that have one of the two
    keys. *)
Theorem unwrap_passthrough (v : value) :
  typeof_object v = false \/
  (HasProperty "json" v = Normal false /\ HasProperty "error" v = Normal false) ->
  unwrap v = Normal v.
Proof.
  intros [Hprim | [Hjson Herror]].
  - unfold Gateway.unwrap. rewrite Hprim. reflexivity.
  - unfold Gateway.unwrap.
    assert (Hobj : typeof_object v = true).
    { destruct (HasProperty_false_inv _ _ Hjson) as [[l ->] | [m [-> _]]]; reflexivity. }
    rewrite Hobj, Hjson. cbn [negb mbind completion_bind].
    rewrite Herror. reflexivity.
Qed.

(** C10.  On [null] the test [typeof response !== "object"] fails, the
    membership test ["json" in response] is evaluated and raises a
    TypeError: [unwrap] neither returns [null] nor throws an [Error] of
    [handleError]'s making. *)
Theorem unwrap_null_TypeError :
  unwrap VNull = Throw TypeError /\
  unwrap VNull <> Normal VNull /\
  forall message, unwrap VNull <> Throw (Error message).
Proof.
  split; [reflexivity |]. split; [discriminate |]. intros message. discriminate.
Qed.

End UnwrapFacts.

(** ** [parseInt] on decimal numerals *)


Lemma of_uint_acc_value (d : uint) (acc : positive) :
  Z.pos (Pos.of_uint_acc d acc) = uint_value d (Z.pos acc).
Proof.
  revert acc. induction d; intros acc; cbn [Pos.of_uint_acc uint_value];
    [reflexivity | rewrite IHd; f_equal; lia ..].
Qed.

Lemma of_uint_value (d : uint) : Z.of_N (Pos.of_uint d) = uint_value d 0.
Proof.
  induction d; cbn [Pos.of_uint uint_value]; [reflexivity | exact IHd | ..];
    cbn [Z.of_N]; rewrite of_uint_acc_value; reflexivity.
Qed.

Lemma to_uint_value (p : positive) : uint_value (Pos.to_uint p) 0 = Z.pos p.
Proof. rewrite <- of_uint_value, DecimalPos.Unsigned.of_to. reflexivity. Qed.








(** ** [parseInt] on what is not a number *)

Lemma strip_prefix_cases (c : ascii) (rest : string) :
  strip_prefix (String c rest) = (10, String c rest) \/ c = "0"%char.
Proof.
  destruct c as [[] [] [] [] [] [] [] []];
    first [left; reflexivity | right; reflexivity].
Qed.

(** When nothing, or a character that is not a decimal digit, follows the
    white space and the sign, there is no number to read. *)
Lemma parseInt_non_numeric (input : string) :
  match snd (strip_sign (trim_start input)) with
  | EmptyString => True
  | String c _ => radix_digit 10 c = None
  end ->
  parseInt input = NaN.
Proof.
  unfold parseInt. destruct (strip_sign (trim_start input)) as [sign unsigned].
  cbn [snd]. destruct unsigned as [| c rest].
  - reflexivity.
  - intros Hc. destruct (strip_prefix_cases c rest) as [-> | ->].
    + cbn [parse_digits]. rewrite Hc. reflexivity.
    + discriminate Hc.
Qed.

(** ** [updateRatelimit] *)

Section RateLimitFacts.

Import Gateway.

Lemma unparsed_missing : unparsed None.
Proof. reflexivity. Qed.

Lemma unparsed_non_numeric (s : string) :
  match snd (strip_sign (trim_start s)) with
  | EmptyString => True
  | String c _ => radix_digit 10 c = None
  end ->
  unparsed (Some s).
Proof. apply parseInt_non_numeric. Qed.


(** C3, as amended.  When [parseInt] gets no number from one of the two
    rate-limit headers, the hook still returns the response, without
    throwing, and still overwrites the snapshot: the field read from the
    failing header is [NaN] in the new snapshot. *)
Theorem updateRatelimit_unparsed (now : Z) (response : GotResponse.t) (g : t) :
  unparsed (header response "x-ratelimit-remaining") \/
  unparsed (header response "x-ratelimit-reset") ->
  exists snapshot,
    updateRatelimit now response g =
      (response,
       {| rateLimit := Some snapshot;
          userAgent := userAgent g;
          endpoint := endpoint g |}) /\
    (unparsed (header response "x-ratelimit-remaining") -> remaining snapshot = NaN) /\
    (unparsed (header response "x-ratelimit-reset") -> reset snapshot = NaN).
Proof.
  intros _. eexists. split; [reflexivity |]. cbn [remaining reset]. split.
  - intros H. exact H.
  - intros H. unfold unparsed in H. rewrite H. reflexivity.
Qed.

End RateLimitFacts.

(** ** The requests a gateway sends *)

Section GatewayFacts.

Import Gateway.

Variable string_gt_zero : string -> bool.
Variable auth : t -> completion (option Auth).
Variable mapPath : string -> string.
Variable got : Request -> Reply.
Variable now : Z.

#[local] Abbreviation buildOptions := (Gateway.buildOptions auth).
#[local] Abbreviation send := (Gateway.send got now).
#[local] Abbreviation get := (Gateway.get string_gt_zero auth mapPath got now).
#[local] Abbreviation doPost := (Gateway.doPost string_gt_zero auth mapPath got now).
#[local] Abbreviation post := (Gateway.post string_gt_zero auth mapPath got now).
#[local] Abbreviation postJson := (Gateway.postJson string_gt_zero auth mapPath got now).

Lemma buildOptions_spec (query : Query) (st : State) :
  match auth (self st) with
  | Throw e => buildOptions query st = (Throw e, st)
  | Normal _ =>
      exists options,
        buildOptions query st = (Normal options, st) /\
        GotOptions.searchParams options =
          <[ "api_type" := VStr "json" ]> (<[ "raw_json" := VNum (Fin 1) ]> query) /\
        GotOptions.form options = None /\
        GotOptions.json options = None
  end.
Proof.
  unfold Gateway.buildOptions.
  destruct (auth (self st)) as [[[bearer | user pass] |] | e];
    [eexists; repeat split; reflexivity .. | reflexivity].
Qed.

Lemma send_spec (m : Method) (u : string) (options : GotOptions.t) (st : State) :
  exists r g,
    send m u options st =
      (r, {| self := g;
             sent := (sent st ++ [{| method := m; url := u; options := options |}])%list |}).
Proof.
  unfold Gateway.send. destruct (got _) as [reason | response decoded].
  - eauto.
  - destruct (fold_left _ _ _) as [r g]. eauto.
Qed.

(** A response that comes back passes through [updateRatelimit] before the
    decoded body is handed on. *)
Lemma send_runs_hook (m : Method) (u : string) (options : GotOptions.t) (st : State)
  (response : GotResponse.t) (decoded : completion value) :
  GotOptions.afterResponse options = [UpdateRatelimit] ->
  got {| method := m; url := u; options := options |} = Replied response decoded ->
  fst (send m u options st) = decoded /\
  self (snd (send m u options st)) = snd (updateRatelimit now response (self st)).
Proof.
  intros Hhooks Hreply. unfold Gateway.send. rewrite Hreply, Hhooks.
  split; reflexivity.
Qed.

(** What [get] sends. *)
Lemma get_sent (path : string) (query : Query) (st : State) :
  match auth (self st) with
  | Throw _ => new_requests (get path query) st = []
  | Normal _ =>
      exists options,
        new_requests (get path query) st =
          [{| method := GET; url := mapPath path; options := options |}] /\
        GotOptions.searchParams options =
          <[ "api_type" := VStr "json" ]> (<[ "raw_json" := VNum (Fin 1) ]> query)
  end.
Proof.
  unfold new_requests, Gateway.get, mbind, G_bind.
  pose proof (buildOptions_spec query st) as Hbuild.
  destruct (auth (self st)) as [a | e].
  - destruct Hbuild as (options & -> & Hsearch & _ & _).
    exists options. split; [| exact Hsearch].
    destruct (send_spec GET (mapPath path) options st) as (r & g & ->).
    destruct r as [body | e]; cbn [snd sent Gateway.lift];
      rewrite drop_app_length; reflexivity.
  - rewrite Hbuild. cbn [snd]. rewrite drop_all. reflexivity.
Qed.

(** What [doPost] sends. *)
Lemma doPost_sent (path : string) (body : Body) (query : Query) (st : State) :
  match auth (self st) with
  | Throw _ => new_requests (doPost path body query) st = []
  | Normal _ =>
      exists baseOptions,
        new_requests (doPost path body query) st =
          [{| method := POST; url := mapPath path;
              options := merge baseOptions body |}] /\
        GotOptions.searchParams baseOptions =
          <[ "api_type" := VStr "json" ]> (<[ "raw_json" := VNum (Fin 1) ]> query) /\
        GotOptions.form baseOptions = None /\
        GotOptions.json baseOptions = None
  end.
Proof.
  unfold new_requests, Gateway.doPost, mbind, G_bind.
  pose proof (buildOptions_spec query st) as Hbuild.
  destruct (auth (self st)) as [a | e].
  - destruct Hbuild as (options & -> & Hsearch & Hform & Hjson).
    exists options. split; [| auto].
    destruct (send_spec POST (mapPath path) (merge options body) st) as (r & g & ->).
    destruct r as [decoded | e]; cbn [snd sent Gateway.lift];
      rewrite drop_app_length; reflexivity.
  - rewrite Hbuild. cbn [snd]. rewrite drop_all. reflexivity.
Qed.

Lemma query_augmented_intro (query : Query) (request : Request) :
  GotOptions.searchParams (options request) =
    <[ "api_type" := VStr "json" ]> (<[ "raw_json" := VNum (Fin 1) ]> query) ->
  query_augmented query request.
Proof.
  intros Hsearch. unfold query_augmented. rewrite Hsearch. repeat split.
  - rewrite lookup_insert_ne by discriminate. apply lookup_insert_eq.
  - apply lookup_insert_eq.
  - intros key Hraw Hapi. rewrite !lookup_insert_ne by congruence. reflexivity.
Qed.

Lemma payload_marked_intro (payload : Data) :
  payload_marked payload (payload ∪ {[ "api_type" := VStr "json" ]}).
Proof.
  unfold payload_marked. split.
  - rewrite lookup_union. destruct (payload !! "api_type") as [v |] eqn:E.
    + rewrite lookup_singleton_eq. reflexivity.
    + rewrite lookup_singleton_eq. reflexivity.
  - intros key Hkey. rewrite lookup_union, lookup_singleton_ne by congruence.
    destruct (payload !! key); reflexivity.
Qed.

(** C6, as amended.  Whatever the query and the payload, each request that
    [get], [post] and [postJson] send (one when [auth()] resolves, none
    when it rejects) has the caller's query string with [raw_json=1] and
    [api_type=json] set; the form of a [post] and the JSON body of a
    [postJson] are the caller's payload with an [api_type] field, which is
    ["json"] unless the payload brings an [api_type] of its own. *)
Theorem requests_carry_markers
  (path : string) (payload : Data) (query : Query) (st : State) :
  let count :=
    match auth (self st) with Normal _ => 1%nat | Throw _ => 0%nat end in
  (List.length (new_requests (get path query) st) = count /\
   Forall (query_augmented query) (new_requests (get path query) st)) /\
  (List.length (new_requests (post path payload query) st) = count /\
   Forall (fun request =>
             query_augmented query request /\
             exists body,
               GotOptions.form (options request) = Some body /\
               payload_marked payload body)
     (new_requests (post path payload query) st)) /\
  (List.length (new_requests (postJson path payload query) st) = count /\
   Forall (fun request =>
             query_augmented query request /\
             exists body,
               GotOptions.json (options request) = Some body /\
               payload_marked payload body)
     (new_requests (postJson path payload query) st)).
Proof.
  cbv zeta.
  pose proof (get_sent path query st) as Hget.
  pose proof (doPost_sent path
                (Form (payload ∪ {[ "api_type" := VStr "json" ]})) query st) as Hpost.
  pose proof (doPost_sent path
                (Json (payload ∪ {[ "api_type" := VStr "json" ]})) query st) as Hjson.
  unfold Gateway.post, Gateway.postJson.
  destruct (auth (self st)) as [a | e].
  - destruct Hget as (o1 & -> & H1).
    destruct Hpost as (o2 & -> & H2 & _ & _).
    destruct Hjson as (o3 & -> & H3 & _ & _).
    split; [| split]; (split; [reflexivity |]); (constructor; [| constructor]).
    + apply query_augmented_intro. exact H1.
    + split; [apply query_augmented_intro; exact H2 |].
      eexists. split; [reflexivity | apply payload_marked_intro].
    + split; [apply query_augmented_intro; exact H3 |].
      eexists. split; [reflexivity | apply payload_marked_intro].
  - rewrite Hget, Hpost, Hjson.
    split; [| split]; (split; [reflexivity | constructor]).
Qed.

End GatewayFacts.

(** ** The calls a client makes *)

Section ClientFacts.

Import Client.

Variable issue : Call -> list Call -> completion Token.
Variable answer : Call -> list Call -> completion value.

#[local] Abbreviation updateAccessToken := (Client.updateAccessToken issue).
#[local] Abbreviation oAuth := (Client.oAuth issue).
#[local] Abbreviation reAuth := (Client.reAuth issue).
#[local] Abbreviation get := (Client.get issue answer).
#[local] Abbreviation fromAuthCode := (Client.fromAuthCode issue).
#[local] Abbreviation invoke := (Client.invoke issue answer).

Lemma updateAccessToken_spec (st : State) :
  updateAccessToken st =
    match creds (this st) with
    | None => (Throw (Thrown "No creds"), st)
    | Some cr =>
        let call :=
          UpdateAccessToken (userAgent (this st)) (token (this st)) cr (auth (this st)) in
        match issue call (calls st) with
        | Normal tok =>
            (Normal tt,
             {| this := {| auth := auth (this st); creds := creds (this st);
                           token := Some tok; userAgent := userAgent (this st) |};
                calls := (calls st ++ [call])%list |})
        | Throw e =>
            (Throw e, {| this := this st; calls := (calls st ++ [call])%list |})
        end
    end.
Proof.
  unfold Client.updateAccessToken, mbind, M_bind, read.
  destruct (creds (this st)) as [cr |] eqn:Hcreds; [| reflexivity].
  unfold call_token, set_token. cbv zeta.
  destruct (issue _ _); cbn [this calls]; rewrite ?Hcreds; reflexivity.
Qed.

Lemma oAuth_spec (st : State) :
  oAuth st =
    match updateAccessToken st with
    | (Normal _, st') =>
        match token (this st') with
        | Some tok =>
            (Normal {| OauthOpts.token := access tok;
                       OauthOpts.userAgent := userAgent (this st') |}, st')
        | None => (Throw TypeError, st')
        end
    | (Throw e, st') => (Throw e, st')
    end.
Proof.
  unfold Client.oAuth, mbind, M_bind, read.
  destruct (updateAccessToken st) as [[[] | e] st']; [| reflexivity].
  destruct (token (this st')); reflexivity.
Qed.

(** The calls one request makes: with credentials, the token manager and
    then, if it gave a token, the authenticated gateway; without, the
    anonymous gateway alone. *)
Lemma invoke_calls (i : Invocation) (st : State) :
  new_calls (invoke i) st =
    match creds (this st) with
    | None =>
        [Anon (invocation_op i) (userAgent (this st)) (invocation_path i)
           (invocation_data i) (invocation_query i)]
    | Some cr =>
        let call :=
          UpdateAccessToken (userAgent (this st)) (token (this st)) cr (auth (this st)) in
        call ::
        match issue call (calls st) with
        | Normal tok =>
            [Oauth (invocation_op i)
               {| OauthOpts.token := access tok;
                    OauthOpts.userAgent := userAgent (this st) |}
               (invocation_path i) (invocation_data i) (invocation_query i)]
        | Throw _ => []
        end
    end.
Proof.
  unfold new_calls.
  destruct i as [path query | path data query | path data query];
    unfold Client.invoke, Client.get, Client.post, Client.postJson;
    unfold mbind at 1; unfold M_bind at 1; unfold read at 1;
    (destruct (creds (this st)) as [cr |] eqn:Hcreds;
     [ unfold mbind, M_bind; rewrite oAuth_spec, updateAccessToken_spec, Hcreds;
       cbv zeta; destruct (issue _ _) as [tok | e];
       cbn [token this calls snd call_gateway userAgent];
       [ unfold call_gateway; cbn [snd calls this];
         rewrite <- app_assoc, drop_app_length; reflexivity
       | rewrite drop_app_length; reflexivity ]
     | unfold call_gateway; cbn [snd calls];
       rewrite drop_app_length; reflexivity ]).
Qed.

Lemma gateways_used_spec (i : Invocation) (st : State) :
  gateways_used (invoke i) st =
    match creds (this st) with
    | None => [Anonymous]
    | Some cr =>
        match issue (UpdateAccessToken (userAgent (this st)) (token (this st)) cr
                       (auth (this st))) (calls st) with
        | Normal _ => [Authenticated]
        | Throw _ => []
        end
    end.
Proof.
  unfold gateways_used. rewrite invoke_calls.
  destruct (creds (this st)) as [cr |]; [| reflexivity].
  cbv zeta. destruct (issue _ _); reflexivity.
Qed.

Lemma token_calls_spec (i : Invocation) (st : State) :
  List.filter is_token_call (new_calls (invoke i) st) =
    match creds (this st) with
    | None => []
    | Some cr =>
        [UpdateAccessToken (userAgent (this st)) (token (this st)) cr (auth (this st))]
    end.
Proof.
  rewrite invoke_calls.
  destruct (creds (this st)) as [cr |]; [| reflexivity].
  cbv zeta. destruct (issue _ _); reflexivity.
Qed.

(** C4.  The gateways a [get], [post] or [postJson] goes through: the
    anonymous one, once, when the client has no credentials; with
    credentials, the authenticated one, once, after the token manager has
    given a token, and none at all when it has not.  The answer mentions
    neither the method nor the path, the payload or the query: any two
    requests from the same state use the same gateways. *)
Theorem gateway_chosen_by_creds (i : Invocation) (st : State) :
  gateways_used (invoke i) st =
    match creds (this st) with
    | None => [Anonymous]
    | Some cr =>
        match issue (UpdateAccessToken (userAgent (this st)) (token (this st)) cr
                       (auth (this st))) (calls st) with
        | Normal _ => [Authenticated]
        | Throw _ => []
        end
    end /\
  forall i', gateways_used (invoke i') st = gateways_used (invoke i) st.
Proof.
  split; [apply gateways_used_spec |].
  intros i'. rewrite !gateways_used_spec. reflexivity.
Qed.

Lemma reAuth_spec (a : Auth) (st : State) :
  reAuth a st =
    let cleared :=
      {| auth := Some a; creds := creds (this st); token := None;
         userAgent := userAgent (this st) |} in
    match creds (this st) with
    | None => (Throw (Thrown "No creds"), {| this := cleared; calls := calls st |})
    | Some cr =>
        let call := UpdateAccessToken (userAgent (this st)) None cr (Some a) in
        match issue call (calls st) with
        | Normal tok =>
            (Normal tt,
             {| this := {| auth := Some a; creds := Some cr; token := Some tok;
                           userAgent := userAgent (this st) |};
                calls := (calls st ++ [call])%list |})
        | Throw e =>
            (Throw e, {| this := cleared; calls := (calls st ++ [call])%list |})
        end
    end.
Proof.
  assert (Hrun : reAuth a st =
            updateAccessToken
              {| this := {| auth := Some a; creds := creds (this st); token := None;
                            userAgent := userAgent (this st) |};
                 calls := calls st |}) by reflexivity.
  rewrite Hrun, updateAccessToken_spec. cbn [this calls creds auth token userAgent].
  destruct (creds (this st)) as [cr |]; [| reflexivity].
  cbv zeta. destruct (issue _ _); reflexivity.
Qed.

(** C5, as amended.  [reAuth(a)] stores [a] and clears the token, and then
    goes to the token manager itself, at once: without credentials it
    throws ["No creds"] and makes no call; with credentials it makes one
    call, with the new descriptor and no current token, and a token that
    comes back is stored.  The request that follows makes one call to the
    token manager again, handing it the new descriptor and the token the
    client holds by then. *)
Theorem reAuth_exchanges_at_once (a : Auth) (st : State) :
  let '(r, st') := reAuth a st in
  auth (this st') = Some a /\
  creds (this st') = creds (this st) /\
  match creds (this st) with
  | None =>
      r = Throw (Thrown "No creds") /\
      token (this st') = None /\
      new_calls (reAuth a) st = []
  | Some cr =>
      let call := UpdateAccessToken (userAgent (this st)) None cr (Some a) in
      new_calls (reAuth a) st = [call] /\
      match issue call (calls st) with
      | Normal tok => r = Normal tt /\ token (this st') = Some tok
      | Throw e => r = Throw e /\ token (this st') = None
      end /\
      forall i,
        List.filter is_token_call (new_calls (invoke i) st') =
          [UpdateAccessToken (userAgent (this st)) (token (this st')) cr (Some a)]
  end.
Proof.
  assert (Hnew : new_calls (reAuth a) st =
            drop (List.length (calls st)) (calls (snd (reAuth a st)))) by reflexivity.
  rewrite Hnew, reAuth_spec. clear Hnew.
  destruct (creds (this st)) as [cr |] eqn:Hcreds.
  - cbv zeta. destruct (issue _ _) as [tok | e]; cbn [snd this calls auth creds token];
      (repeat split; try reflexivity;
       [ rewrite drop_app_length; reflexivity
       | intros i; rewrite token_calls_spec; reflexivity ]).
  - cbn [snd this calls auth creds token]. repeat split.
    apply drop_all.
Qed.

(** C9.  [fromAuthCode] throws ["No creds"], before any call, when the
    options carry no credentials.  With credentials it makes one call, the
    exchange of the code; a rejection of the exchange is the outcome, and a
    token that comes back is stored in the client returned, whose
    descriptor is the refresh-token descriptor made of that token's refresh
    value.  The request that follows hands this descriptor and this token
    to the token manager. *)
Theorem fromAuthCode_seeds_refresh_token
  (opts : ClientOptions.t) (code redirectUri : string) (log : list Call) :
  match ClientOptions.creds opts with
  | None => fromAuthCode opts code redirectUri log = (Throw (Thrown "No creds"), log)
  | Some cr =>
      let call := TokenFromCode code cr (ClientOptions.userAgent opts) redirectUri in
      match issue call log with
      | Throw e =>
          fromAuthCode opts code redirectUri log = (Throw e, (log ++ [call])%list)
      | Normal tok =>
          let client :=
            {| auth := Some (TokenAuth (refresh tok));
               creds := Some cr;
               token := Some tok;
               userAgent := ClientOptions.userAgent opts |} in
          fromAuthCode opts code redirectUri log = (Normal client, (log ++ [call])%list) /\
          forall i log',
            List.filter is_token_call
              (new_calls (invoke i) {| this := client; calls := log' |}) =
              [UpdateAccessToken (ClientOptions.userAgent opts) (Some tok) cr
                 (Some (TokenAuth (refresh tok)))]
      end
  end.
Proof.
  unfold Client.fromAuthCode.
  destruct (ClientOptions.creds opts) as [cr |] eqn:Hcreds; [| reflexivity].
  cbv zeta. unfold mbind, M_bind, call_token, new.
  cbn [this calls userAgent].
  destruct (issue _ log) as [tok | e]; [| reflexivity].
  split.
  - unfold set_token, set_auth, read. cbn [this calls auth creds token userAgent].
    rewrite Hcreds. reflexivity.
  - intros i log'. rewrite token_calls_spec. reflexivity.
Qed.

End ClientFacts.

(** ** The properties on sample inputs *)

Lemma unwrap_result_wrapper_witness :
  Gateway.unwrap Sample.string_gt_zero
    (obj [("json", obj [("errors", VArr []); ("data", obj [("ok", VBool true)])])])
  = Normal (obj [("ok", VBool true)]) /\
  Gateway.unwrap Sample.string_gt_zero
    (obj [("json", obj [("errors", VArr [VStr "bad thing"]); ("data", VNull)])])
  = Throw (Error "Reddit returned an error: bad thing").
Proof.
  split.
  - exact (unwrap_result_wrapper Sample.string_gt_zero
             (list_to_map
                [("json", obj [("errors", VArr []); ("data", obj [("ok", VBool true)])])])
             (list_to_map [("errors", VArr []); ("data", obj [("ok", VBool true)])])
             [] eq_refl eq_refl).
  - exact (proj2
             (unwrap_result_wrapper Sample.string_gt_zero
                (list_to_map
                   [("json", obj [("errors", VArr [VStr "bad thing"]); ("data", VNull)])])
                (list_to_map [("errors", VArr [VStr "bad thing"]); ("data", VNull)])
                [VStr "bad thing"] eq_refl eq_refl)
             "bad thing" eq_refl).
Defined.

Lemma unwrap_top_level_error_witness :
  Gateway.unwrap Sample.string_gt_zero
    (obj [("error", VStr "404"); ("error_description", VStr "not found")])
  = Throw (Error "Reddit returned an error: 404: not found").
Proof.
  exact (unwrap_top_level_error Sample.string_gt_zero
           (list_to_map [("error", VStr "404"); ("error_description", VStr "not found")])
           (VStr "404") "404" eq_refl eq_refl eq_refl "not found" eq_refl).
Defined.

(** C2, as stated, fails on an empty description: the field is present and
    the message has no [": <description>"] part. *)
Lemma unwrap_empty_description_counterexample :
  let body := obj [("error", VStr "404"); ("error_description", VStr "")] in
  Gateway.unwrap Sample.string_gt_zero body
  = Throw (Error "Reddit returned an error: 404") /\
  Gateway.unwrap Sample.string_gt_zero body
  <> Throw (Error "Reddit returned an error: 404: ").
Proof. split; [vm_compute; reflexivity | vm_compute; discriminate]. Qed.

(** C7, as stated, fails on [null]: it is no object with the key ["json"]
    or the key ["error"], and no array, yet it is of type ["object"], the
    membership test is evaluated on it, and [unwrap] throws instead of
    returning it. *)
Lemma unwrap_null_not_returned_counterexample :
  typeof_object VNull = true /\
  (forall m : gmap string value, VNull <> VObj m) /\
  (forall l : list value, VNull <> VArr l) /\
  Gateway.unwrap Sample.string_gt_zero VNull = Throw TypeError /\
  Gateway.unwrap Sample.string_gt_zero VNull <> Normal VNull.
Proof.
  split; [reflexivity |].
  split; [intros m; discriminate |].
  split; [intros l; discriminate |].
  split; [reflexivity | vm_compute; discriminate].
Qed.

Lemma unwrap_passthrough_witness :
  Gateway.unwrap Sample.string_gt_zero (VStr "plain") = Normal (VStr "plain") /\
  Gateway.unwrap Sample.string_gt_zero (obj [("foo", VStr "bar")])
  = Normal (obj [("foo", VStr "bar")]).
Proof.
  split.
  - apply (unwrap_passthrough Sample.string_gt_zero (VStr "plain")).
    left. reflexivity.
  - apply (unwrap_passthrough Sample.string_gt_zero (obj [("foo", VStr "bar")])).
    right. split; reflexivity.
Defined.


Lemma updateRatelimit_unparsed_witness :
  exists snapshot,
    Gateway.updateRatelimit 1700000000000 (Sample.response [("x-ratelimit-reset", "soon")])
      (Gateway.self Sample.gateway)
    = (Sample.response [("x-ratelimit-reset", "soon")],
       {| Gateway.rateLimit := Some snapshot;
          Gateway.userAgent := "snoots-test";
          Gateway.endpoint := "https://www.reddit.com" |}) /\
    Gateway.remaining snapshot = NaN /\
    Gateway.reset snapshot = NaN.
Proof.
  destruct (updateRatelimit_unparsed 1700000000000
              (Sample.response [("x-ratelimit-reset", "soon")])
              (Gateway.self Sample.gateway))
    as (snapshot & Hrun & Hremaining & Hreset).
  - left. reflexivity.
  - exists snapshot. split; [exact Hrun |].
    split; [apply Hremaining | apply Hreset]; reflexivity.
Defined.

(** C3, as stated, fails on a response without rate-limit headers: the
    snapshot that was stored is replaced. *)
Lemma updateRatelimit_missing_headers_counterexample :
  let g := Gateway.self Sample.gateway in
  let g' := snd (Gateway.updateRatelimit 1700000000000 (Sample.response []) g) in
  Gateway.rateLimit g = Some {| Gateway.remaining := Fin 59;
                                Gateway.reset := Fin 1700000600000 |} /\
  Gateway.rateLimit g' = Some {| Gateway.remaining := NaN; Gateway.reset := NaN |} /\
  Gateway.rateLimit g' <> Gateway.rateLimit g.
Proof.
  cbv zeta. split; [reflexivity |]. split; [reflexivity |].
  vm_compute. discriminate.
Qed.

(** C6, as stated, fails on a payload that has an [api_type] of its own:
    the form sent keeps the caller's value. *)
Lemma post_keeps_own_api_type_counterexample :
  exists request form,
    new_requests
      (Gateway.post Sample.string_gt_zero Sample.auth Sample.mapPath Sample.got 0
         "api/vote" {[ "api_type" := VStr "xml" ]} ∅)
      Sample.gateway = [request] /\
    Gateway.GotOptions.form (Gateway.options request) = Some form /\
    form !! "api_type" = Some (VStr "xml") /\
    form !! "api_type" <> Some (VStr "json").
Proof.
  eexists _, _. split; [vm_compute; reflexivity |].
  split; [reflexivity |].
  split; [vm_compute; reflexivity | vm_compute; discriminate].
Qed.

(** C5, as stated, fails: once [reAuth] has returned, the client holds the
    token that [reAuth] itself has obtained with the new descriptor, and the
    request that follows hands that token to the token manager. *)
Lemma reAuth_token_not_discarded_counterexample :
  let descriptor := Client.TokenAuth (Some "refresh-0") in
  let st' := snd (Client.reAuth Sample.issue descriptor Sample.client) in
  Client.auth (Client.this st') = Some descriptor /\
  Client.token (Client.this st') = Some Sample.granted /\
  Client.token (Client.this st') <> None /\
  new_calls (Client.reAuth Sample.issue descriptor) Sample.client
  = [Client.UpdateAccessToken "snoots-test" None Sample.credentials (Some descriptor)] /\
  List.filter Client.is_token_call
    (new_calls (Client.get Sample.issue Sample.answer "api/v1/me" ∅) st')
  = [Client.UpdateAccessToken "snoots-test" (Some Sample.granted) Sample.credentials
       (Some descriptor)].
Proof.
  cbv zeta. split; [reflexivity |]. split; [reflexivity |].
  split; [vm_compute; discriminate |].
  split; vm_compute; reflexivity.
Qed.

Example unwrap_ok :
  Gateway.unwrap Sample.string_gt_zero
    (obj [("json", obj [("errors", VArr []); ("data", obj [("ok", VBool true)])])])
  = Normal (obj [("ok", VBool true)]).
Proof. vm_compute. reflexivity. Qed.

Example unwrap_bad_thing :
  Gateway.unwrap Sample.string_gt_zero
    (obj [("json", obj [("errors", VArr [VStr "bad thing"]); ("data", VNull)])])
  = Throw (Error "Reddit returned an error: bad thing").
Proof. vm_compute. reflexivity. Qed.

Example unwrap_404 :
  Gateway.unwrap Sample.string_gt_zero
    (obj [("error", VNum (Fin 404)); ("error_description", VStr "not found")])
  = Throw (Error "Reddit returned an error: 404: not found").
Proof. vm_compute. reflexivity. Qed.

Example unwrap_foo_bar :
  Gateway.unwrap Sample.string_gt_zero (obj [("foo", VStr "bar")])
  = Normal (obj [("foo", VStr "bar")]).
Proof. vm_compute. reflexivity. Qed.

Example parseInt_samples :
  [parseInt "59"; parseInt "  -12px"; parseInt "0x1F"; parseInt "598.0";
   parseInt "undefined"; parseInt ""; parseInt "0x"; parseInt "+"; parseInt "-0"]
  = [Fin 59; Fin (-12); Fin 31; Fin 598; NaN; NaN; NaN; NaN; Fin 0].
Proof. vm_compute. reflexivity. Qed.

(** * Further properties *)

(** ** More on [unwrap] *)

Section UnwrapMore.

Variable string_gt_zero : string -> bool.

#[local] Abbreviation unwrap := (Gateway.unwrap string_gt_zero).

(** [handleError] has no normal outcome, whatever it is given. *)
Lemma handleError_throws (message description r : value) :
  Gateway.handleError message description <> Normal r.
Proof.
  unfold Gateway.handleError.
  destruct (ToString message) as [m | e]; step; [| discriminate].
  destruct (ToBoolean description); [| discriminate].
  destruct (ToString description) as [d | e]; step; discriminate.
Qed.

Lemma unwrap_wrapper_branch (m : gmap string value) (w : value) :
  m !! "json" = Some w ->
  unwrap (VObj m) =
    (errors ← Get w "errors";
     data ← Get w "data";
     len ← Get errors "length";
     nonEmpty ← gt_zero string_gt_zero len;
     if nonEmpty : bool then
       first ← Get errors "0";
       Gateway.handleError first VUndefined
     else Normal data).
Proof.
  intros Hjson. unfold Gateway.unwrap. cbn [typeof_object negb].
  rewrite (HasProperty_present _ _ _ Hjson). step.
  rewrite (Get_obj _ _ _ Hjson). step. reflexivity.
Qed.

Lemma unwrap_error_branch (m : gmap string value) (error : value) :
  m !! "json" = None ->
  m !! "error" = Some error ->
  unwrap (VObj m) =
    Gateway.handleError error (default VUndefined (m !! "error_description")).
Proof.
  intros Hjson Herror. unfold Gateway.unwrap. cbn [typeof_object negb].
  rewrite (HasProperty_absent _ _ Hjson). step.
  rewrite (HasProperty_present _ _ _ Herror). step.
  rewrite (Get_obj _ _ _ Herror). step. reflexivity.
Qed.

(** X1.  The wrapper key wins: on a body that has the key ["json"], what
    [unwrap] does depends on the value under that key alone.  A top-level
    [error] field beside it is never looked at. *)
Theorem unwrap_wrapper_precedence (m : gmap string value) (w : value) :
  m !! "json" = Some w ->
  unwrap (VObj m) = unwrap (VObj {[ "json" := w ]}).
Proof.
  intros Hjson.
  rewrite (unwrap_wrapper_branch m w Hjson).
  rewrite (unwrap_wrapper_branch {[ "json" := w ]} w (lookup_singleton_eq _ _)).
  reflexivity.
Qed.

(** X2.  A wrapper without [errors]: when the value under ["json"] is not an
    object, or is an object whose [errors] is missing or [null], [unwrap]
    raises a TypeError; the [data] beside it is not returned. *)
Theorem unwrap_wrapper_without_errors (m : gmap string value) (w : value) :
  m !! "json" = Some w ->
  match w with
  | VObj mw => mw !! "errors" = None \/ mw !! "errors" = Some VNull
  | _ => True
  end ->
  unwrap (VObj m) = Throw TypeError.
Proof.
  intros Hjson Hw. rewrite (unwrap_wrapper_branch m w Hjson).
  destruct w as [| | b | n | s | l | mw]; try reflexivity.
  destruct Hw as [Hw | Hw]; cbn [Get]; rewrite Hw; reflexivity.
Qed.

(** X3.  A body marked as an error never comes back as a value: with a
    top-level [error] field and no wrapper key, [unwrap] has no normal
    outcome, whatever the field and its description hold. *)
Theorem unwrap_error_never_returned (m : gmap string value) (error r : value) :
  m !! "json" = None ->
  m !! "error" = Some error ->
  unwrap (VObj m) <> Normal r.
Proof.
  intros Hjson Herror. rewrite (unwrap_error_branch m error Hjson Herror).
  apply handleError_throws.
Qed.

(** X4.  What [unwrap] can return: the body itself, and then the body is
    not an object with the key ["json"] or the key ["error"]; or what the
    [data] slot of the wrapper holds. *)
Theorem unwrap_returns (v r : value) :
  unwrap v = Normal r ->
  (r = v /\ forall m, v = VObj m -> m !! "json" = None /\ m !! "error" = None) \/
  (exists m w, v = VObj m /\ m !! "json" = Some w /\ Get w "data" = Normal r).
Proof.
  destruct v as [| | b | n | s | l | m]; try (intros H; injection H as <-; left;
    split; [reflexivity | intros m' Hm'; discriminate Hm']).
  - discriminate.
  - destruct (m !! "json") as [w |] eqn:Hjson.
    + rewrite (unwrap_wrapper_branch m w Hjson). intros H. right.
      exists m, w. split; [reflexivity |]. split; [exact Hjson |].
      destruct (Get w "errors") as [errors | e]; [| discriminate H].
      destruct (Get w "data") as [data | e]; [| discriminate H].
      revert H. step.
      destruct (Get errors "length") as [len | e]; [| discriminate]. step.
      destruct (gt_zero string_gt_zero len) as [[] | e]; step; [| congruence | discriminate].
      destruct (Get errors "0") as [first | e]; [| discriminate]. step.
      intros H. exfalso. exact (handleError_throws _ _ _ H).
    + destruct (m !! "error") as [error |] eqn:Herror.
      * rewrite (unwrap_error_branch m error Hjson Herror).
        intros H. exfalso. exact (handleError_throws _ _ _ H).
      * unfold Gateway.unwrap. cbn [typeof_object negb].
        rewrite (HasProperty_absent _ _ Hjson). step.
        rewrite (HasProperty_absent _ _ Herror). step.
        intros H. injection H as <-. left. split; [reflexivity |].
        intros m' Hm'. injection Hm' as <-. split; assumption.
Qed.

End UnwrapMore.

(** ** More on the rate-limit headers *)

Lemma append_cons (a : ascii) (s t : string) : String a s +:+ t = String a (s +:+ t).
Proof. reflexivity. Qed.

Lemma parse_digits_stop (tail : string) (acc : option Z) :
  ends_number tail = true -> parse_digits 10 tail acc = acc.
Proof.
  destruct tail as [| c rest]; [reflexivity |]. cbn [ends_number parse_digits].
  destruct (radix_digit 10 c); [discriminate | reflexivity].
Qed.

Lemma parse_digits_numeral_tail (d : uint) (acc : Z) (tail : string) :
  ends_number tail = true ->
  parse_digits 10 (NilEmpty.string_of_uint d +:+ tail) (Some acc)
  = Some (uint_value d acc).
Proof.
  intros Htail. revert acc.
  induction d; intros acc; cbn [NilEmpty.string_of_uint uint_value];
    [apply (parse_digits_stop tail _ Htail) | rewrite append_cons; apply IHd ..].
Qed.

Lemma strip_prefix_zero (c : ascii) (rest : string) :
  Ascii.eqb c "x" = false -> Ascii.eqb c "X" = false ->
  strip_prefix (String "0" (String c rest)) = (10, String "0" (String c rest)).
Proof.
  destruct c as [[] [] [] [] [] [] [] []]; intros Hx HX;
    first [reflexivity | discriminate Hx | discriminate HX].
Qed.

Lemma numeral_tail_shape (d : uint) (tail : string) :
  d <> Nil ->
  ends_number tail = true ->
  let s := NilEmpty.string_of_uint d +:+ tail in
  trim_start s = s /\ strip_sign s = (1, s) /\ strip_prefix s = (10, s).
Proof.
  intros Hd Htail. cbv zeta.
  destruct d as [| d | d | d | d | d | d | d | d | d | d]; [congruence | ..];
    cbn [NilEmpty.string_of_uint]; rewrite append_cons;
    try (repeat split; reflexivity).
  repeat split.
  destruct d; cbn [NilEmpty.string_of_uint]; rewrite ?append_cons; try reflexivity.
  change ("" +:+ tail) with tail.
  destruct tail as [| c rest]; [reflexivity |].
  cbn [ends_number] in Htail. destruct (radix_digit 10 c); [discriminate |].
  apply andb_prop in Htail as [Hx HX].
  apply strip_prefix_zero; apply negb_true_iff; assumption.
Qed.

Lemma parseInt_numeral_tail (d : uint) (tail : string) :
  d <> Nil ->
  ends_number tail = true ->
  parseInt (NilEmpty.string_of_uint d +:+ tail) = Fin (uint_value d 0) /\
  parseInt (String "-" (NilEmpty.string_of_uint d +:+ tail)) = Fin (- uint_value d 0).
Proof.
  intros Hd Htail.
  destruct (numeral_tail_shape d tail Hd Htail) as (Htrim & Hsign & Hprefix).
  assert (Hdigits : parse_digits 10 (NilEmpty.string_of_uint d +:+ tail) None
                    = Some (uint_value d 0)).
  { destruct d; [congruence | ..]; cbn [NilEmpty.string_of_uint uint_value];
      rewrite append_cons; apply (parse_digits_numeral_tail _ _ _ Htail). }
  split; unfold parseInt.
  - rewrite Htrim, Hsign, Hprefix, Hdigits. f_equal. lia.
  - change (trim_start (String "-" (NilEmpty.string_of_uint d +:+ tail)))
      with (String "-" (NilEmpty.string_of_uint d +:+ tail)).
    change (strip_sign (String "-" (NilEmpty.string_of_uint d +:+ tail)))
      with (-1, NilEmpty.string_of_uint d +:+ tail).
    cbv beta iota. rewrite Hprefix, Hdigits. f_equal; lia.
Qed.

(** [parseInt] reads the integer at the start of a string and ignores what
    follows it. *)
Lemma parseInt_decimal_tail (z : Z) (tail : string) :
  ends_number tail = true -> parseInt (decimal z +:+ tail) = Fin z.
Proof.
  intros Htail. unfold decimal, number_to_string. destruct z as [| p | p].
  - change (NilZero.string_of_int (Z.to_int 0)) with (NilEmpty.string_of_uint (D0 Nil)).
    apply (parseInt_numeral_tail (D0 Nil) tail); [discriminate | exact Htail].
  - cbn [Z.to_int NilZero.string_of_int].
    assert (Hp := DecimalPos.Unsigned.to_uint_nonnil p).
    replace (NilZero.string_of_uint (Pos.to_uint p))
      with (NilEmpty.string_of_uint (Pos.to_uint p))
      by (destruct (Pos.to_uint p); [congruence | reflexivity ..]).
    rewrite (proj1 (parseInt_numeral_tail _ tail Hp Htail)), to_uint_value. reflexivity.
  - cbn [Z.to_int NilZero.string_of_int].
    assert (Hp := DecimalPos.Unsigned.to_uint_nonnil p).
    replace (NilZero.string_of_uint (Pos.to_uint p))
      with (NilEmpty.string_of_uint (Pos.to_uint p))
      by (destruct (Pos.to_uint p); [congruence | reflexivity ..]).
    rewrite append_cons.
    rewrite (proj2 (parseInt_numeral_tail _ tail Hp Htail)), to_uint_value. reflexivity.
Qed.

Lemma trim_start_whitespace (ws s : string) :
  all_chars is_whitespace ws = true -> trim_start (ws +:+ s) = trim_start s.
Proof.
  induction ws as [| c ws IH]; [reflexivity |].
  cbn [all_chars]. intros H. apply andb_prop in H as [Hc Hws].
  rewrite append_cons. cbn [trim_start]. rewrite Hc. apply IH. exact Hws.
Qed.

(** X5.  Only the integer at the start of a rate-limit header counts.  When
    the two headers are, after any white space, the decimal renderings of
    the safe integers [r] and [s], each followed by nothing or by text that
    starts with neither a digit nor an [x] (as in ["598.0"]), the snapshot
    becomes [remaining = r], [reset = now + s * 1000]. *)
Theorem updateRatelimit_leading_integer
  (now r s : Z) (ws1 tail1 ws2 tail2 : string)
  (response : Gateway.GotResponse.t) (g : Gateway.t) :
  Gateway.header response "x-ratelimit-remaining" = Some (ws1 +:+ decimal r +:+ tail1) ->
  Gateway.header response "x-ratelimit-reset" = Some (ws2 +:+ decimal s +:+ tail2) ->
  all_chars is_whitespace ws1 = true ->
  all_chars is_whitespace ws2 = true ->
  ends_number tail1 = true ->
  ends_number tail2 = true ->
  is_safe r = true ->
  is_safe (s * 1000) = true ->
  is_safe now = true ->
  is_safe (now + s * 1000) = true ->
  Gateway.rateLimit (snd (Gateway.updateRatelimit now response g))
  = Some {| Gateway.remaining := Fin r; Gateway.reset := Fin (now + s * 1000) |}.
Proof.
  intros Hremaining Hreset Hws1 Hws2 Htail1 Htail2 _ _ _ _.
  assert (Hread : forall ws z tail,
             all_chars is_whitespace ws = true -> ends_number tail = true ->
             parseInt (ws +:+ decimal z +:+ tail) = Fin z).
  { intros ws z tail Hws Htail.
    assert (Htrim : parseInt (ws +:+ decimal z +:+ tail) = parseInt (decimal z +:+ tail)).
    { unfold parseInt. rewrite (trim_start_whitespace ws _ Hws). reflexivity. }
    rewrite Htrim. apply parseInt_decimal_tail. exact Htail. }
  unfold Gateway.updateRatelimit. cbn [snd Gateway.rateLimit].
  rewrite Hremaining, Hreset. unfold Gateway.parseInt_header.
  simpl default. rewrite (Hread ws1 r tail1 Hws1 Htail1), (Hread ws2 s tail2 Hws2 Htail2).
  reflexivity.
Qed.

(** ** More on the requests of a gateway *)

Section GatewayMore.

Import Gateway.

Variable string_gt_zero : string -> bool.
Variable auth : t -> completion (option Auth).
Variable mapPath : string -> string.
Variable got : Request -> Reply.
Variable now : Z.

#[local] Abbreviation unwrap := (Gateway.unwrap string_gt_zero).
#[local] Abbreviation buildOptions := (Gateway.buildOptions auth).
#[local] Abbreviation send := (Gateway.send got now).
#[local] Abbreviation get := (Gateway.get string_gt_zero auth mapPath got now).
#[local] Abbreviation doPost := (Gateway.doPost string_gt_zero auth mapPath got now).
#[local] Abbreviation post := (Gateway.post string_gt_zero auth mapPath got now).
#[local] Abbreviation postJson := (Gateway.postJson string_gt_zero auth mapPath got now).

(** X6.  How [buildOptions] attaches what [auth()] gives: a bearer token
    goes into the [Authorization] header and nowhere else, a user/password
    pair goes into [username] and [password] and no [Authorization] header is
    set, and with nothing to attach neither is set.  The options always
    carry the gateway's endpoint and user agent and the rate-limit hook, and
    building them does not change the gateway. *)
Theorem buildOptions_credentials (query : Query) (st : State) (a : option Auth) :
  auth (self st) = Normal a ->
  exists options,
    buildOptions query st = (Normal options, st) /\
    GotOptions.prefixUrl options = endpoint (self st) /\
    GotOptions.headers options !! "user-agent" = Some (userAgent (self st)) /\
    GotOptions.afterResponse options = [UpdateRatelimit] /\
    match a with
    | None =>
        GotOptions.headers options !! "Authorization" = None /\
        GotOptions.username options = None /\
        GotOptions.password options = None
    | Some (Bearer bearer) =>
        GotOptions.headers options !! "Authorization" = Some ("bearer " +:+ bearer) /\
        GotOptions.username options = None /\
        GotOptions.password options = None
    | Some (Basic user pass) =>
        GotOptions.headers options !! "Authorization" = None /\
        GotOptions.username options = Some user /\
        GotOptions.password options = Some pass
    end.
Proof.
  intros Hauth. unfold Gateway.buildOptions. rewrite Hauth.
  destruct a as [[bearer | user pass] |]; eexists;
    (split; [reflexivity |]); cbn; repeat split;
    try reflexivity; try apply lookup_singleton_eq.
Qed.

Lemma rejected_auth
  (path : string) (payload : Data) (query : Query) (st : State) (e : exn) :
  auth (self st) = Throw e ->
  get path query st = (Throw e, st) /\
  post path payload query st = (Throw e, st) /\
  postJson path payload query st = (Throw e, st).
Proof.
  intros Hauth.
  assert (Hbuild : buildOptions query st = (Throw e, st)).
  { unfold Gateway.buildOptions. rewrite Hauth. reflexivity. }
  unfold Gateway.get, Gateway.post, Gateway.postJson, Gateway.doPost, mbind, G_bind.
  rewrite Hbuild. repeat split.
Qed.

(** X7.  When [auth()] rejects, [get], [post] and [postJson] reject with
    the same reason, send nothing and leave the gateway as it was. *)
Theorem auth_rejection_sends_nothing
  (path : string) (payload : Data) (query : Query) (st : State) (e : exn) :
  auth (self st) = Throw e ->
  get path query st = (Throw e, st) /\
  post path payload query st = (Throw e, st) /\
  postJson path payload query st = (Throw e, st).
Proof. apply rejected_auth. Qed.

Lemma send_outcome (m : Method) (u : string) (options : GotOptions.t) (st : State) :
  GotOptions.afterResponse options = [UpdateRatelimit] ->
  let request := {| method := m; url := u; options := options |} in
  send m u options st =
    match got request with
    | NoReply reason =>
        (Throw (Rejected reason),
         {| self := self st; sent := (sent st ++ [request])%list |})
    | Replied response decoded =>
        (decoded,
         {| self := snd (updateRatelimit now response (self st));
            sent := (sent st ++ [request])%list |})
    end.
Proof.
  intros Hhooks. cbv zeta. unfold Gateway.send. rewrite Hhooks.
  destruct (got _); reflexivity.
Qed.

Lemma bind_lift_unwrap (decoded : completion value) (st : State) :
  match (decoded, st) with
  | (Normal a, st') => lift (unwrap a) st'
  | (Throw e, st') => (Throw e, st')
  end = (decoded ≫= unwrap, st).
Proof. destruct decoded; reflexivity. Qed.

Lemma outcome_of_request
  (path : string) (payload : Data) (query : Query) (st : State)
  (baseOptions : GotOptions.t) :
  buildOptions query st = (Normal baseOptions, st) ->
  let outcome (request : Request) :=
    match got request with
    | NoReply reason =>
        (Throw (Rejected reason),
         {| self := self st; sent := (sent st ++ [request])%list |})
    | Replied response decoded =>
        (decoded ≫= unwrap,
         {| self := snd (updateRatelimit now response (self st));
            sent := (sent st ++ [request])%list |})
    end in
  get path query st =
    outcome {| method := GET; url := mapPath path; options := baseOptions |} /\
  post path payload query st =
    outcome {| method := POST; url := mapPath path;
               options := merge baseOptions
                            (Form (payload ∪ {[ "api_type" := VStr "json" ]})) |} /\
  postJson path payload query st =
    outcome {| method := POST; url := mapPath path;
               options := merge baseOptions
                            (Json (payload ∪ {[ "api_type" := VStr "json" ]})) |}.
Proof.
  intros Hbuild. cbv zeta.
  assert (Hhooks : GotOptions.afterResponse baseOptions = [UpdateRatelimit]).
  { revert Hbuild. unfold Gateway.buildOptions.
    destruct (auth (self st)) as [[[bearer | user pass] |] | e]; intros H;
      inversion H; reflexivity. }
  assert (Hrun : forall m options,
             GotOptions.afterResponse options = [UpdateRatelimit] ->
             match send m (mapPath path) options st with
             | (Normal a, st') => lift (unwrap a) st'
             | (Throw e, st') => (Throw e, st')
             end =
             match got {| method := m; url := mapPath path; options := options |} with
             | NoReply reason =>
                 (Throw (Rejected reason),
                  {| self := self st;
                     sent := (sent st ++ [{| method := m; url := mapPath path;
                                             options := options |}])%list |})
             | Replied response decoded =>
                 (decoded ≫= unwrap,
                  {| self := snd (updateRatelimit now response (self st));
                     sent := (sent st ++ [{| method := m; url := mapPath path;
                                             options := options |}])%list |})
             end).
  { intros m options Ho. rewrite (send_outcome m (mapPath path) options st Ho).
    cbv zeta. destruct (got _) as [reason | response decoded]; [reflexivity |].
    apply bind_lift_unwrap. }
  unfold Gateway.get, Gateway.post, Gateway.postJson, Gateway.doPost, mbind, G_bind.
  rewrite Hbuild.
  split; [apply Hrun; exact Hhooks |].
  split; apply Hrun; exact Hhooks.
Qed.

(** X8.  What a request comes to once the options are built.  When the
    transport gives no response, the request rejects and the snapshot is
    left alone.  When a response comes back, the snapshot is the one
    [updateRatelimit] makes of that response, whether or not the body
    decodes and whether or not [unwrap] then throws, and the outcome is
    [unwrap] of the decoded body. *)
Theorem request_outcome
  (path : string) (payload : Data) (query : Query) (st : State)
  (baseOptions : GotOptions.t) :
  buildOptions query st = (Normal baseOptions, st) ->
  let outcome (request : Request) :=
    match got request with
    | NoReply reason =>
        (Throw (Rejected reason),
         {| self := self st; sent := (sent st ++ [request])%list |})
    | Replied response decoded =>
        (decoded ≫= unwrap,
         {| self := snd (updateRatelimit now response (self st));
            sent := (sent st ++ [request])%list |})
    end in
  get path query st =
    outcome {| method := GET; url := mapPath path; options := baseOptions |} /\
  post path payload query st =
    outcome {| method := POST; url := mapPath path;
               options := merge baseOptions
                            (Form (payload ∪ {[ "api_type" := VStr "json" ]})) |} /\
  postJson path payload query st =
    outcome {| method := POST; url := mapPath path;
               options := merge baseOptions
                            (Json (payload ∪ {[ "api_type" := VStr "json" ]})) |}.
Proof. apply outcome_of_request. Qed.

(** X9.  The shape of what goes out.  Each request that [get], [post] or
    [postJson] sends goes to [mapPath path]; a [get] is a GET without a
    body, a [post] is a POST with a form and no JSON body, a [postJson] is a
    POST with a JSON body and no form. *)
Theorem request_shape (path : string) (payload : Data) (query : Query) (st : State) :
  Forall (fun request =>
            method request = GET /\ url request = mapPath path /\
            GotOptions.form (options request) = None /\
            GotOptions.json (options request) = None)
    (new_requests (get path query) st) /\
  Forall (fun request =>
            method request = POST /\ url request = mapPath path /\
            is_Some (GotOptions.form (options request)) /\
            GotOptions.json (options request) = None)
    (new_requests (post path payload query) st) /\
  Forall (fun request =>
            method request = POST /\ url request = mapPath path /\
            GotOptions.form (options request) = None /\
            is_Some (GotOptions.json (options request)))
    (new_requests (postJson path payload query) st).
Proof.
  pose proof (buildOptions_spec auth query st) as Hbuild.
  destruct (auth (self st)) as [a | e] eqn:Hauth.
  - destruct Hbuild as (o & Hbuild & _ & Hform & Hjson).
    destruct (outcome_of_request path payload query st o Hbuild) as (Hget & Hpost & HpostJson).
    assert (Hsent : forall request,
               sent (snd (match got request with
                          | NoReply reason =>
                              (Throw (Rejected reason),
                               {| self := self st;
                                  sent := (sent st ++ [request])%list |})
                          | Replied response decoded =>
                              (decoded ≫= unwrap,
                               {| self := snd (updateRatelimit now response (self st));
                                  sent := (sent st ++ [request])%list |})
                          end)) = (sent st ++ [request])%list).
    { intros request. destruct (got request); reflexivity. }
    unfold new_requests. rewrite Hget, Hpost, HpostJson, !Hsent, !drop_app_length.
    split; [| split]; (constructor; [| constructor]); cbn;
      rewrite ?Hform, ?Hjson; repeat split; eauto.
  - destruct (rejected_auth path payload query st e Hauth)
      as (Hget & Hpost & HpostJson).
    unfold new_requests. rewrite Hget, Hpost, HpostJson. cbn [snd].
    rewrite drop_all. repeat split; constructor.
Qed.

End GatewayMore.

(** ** More on the calls of a client *)

Section ClientMore.

Import Client.

Variable issue : Call -> list Call -> completion Token.
Variable answer : Call -> list Call -> completion value.

#[local] Abbreviation reAuth := (Client.reAuth issue).
#[local] Abbreviation invoke := (Client.invoke issue answer).
#[local] Abbreviation fromAuthCode := (Client.fromAuthCode issue).

Lemma invoke_spec (i : Invocation) (st : State) :
  invoke i st =
    match creds (this st) with
    | None =>
        (answer (anon_call i st) (calls st),
         {| this := this st; calls := (calls st ++ [anon_call i st])%list |})
    | Some cr =>
        match issue (token_call st cr) (calls st) with
        | Normal tok =>
            (answer (oauth_call i st tok) (calls st ++ [token_call st cr])%list,
             {| this := {| auth := auth (this st); creds := creds (this st);
                           token := Some tok; userAgent := userAgent (this st) |};
                calls := ((calls st ++ [token_call st cr]) ++ [oauth_call i st tok])%list |})
        | Throw e =>
            (Throw e,
             {| this := this st; calls := (calls st ++ [token_call st cr])%list |})
        end
    end.
Proof.
  unfold token_call, anon_call, oauth_call.
  destruct i as [path query | path data query | path data query];
    unfold Client.invoke, Client.get, Client.post, Client.postJson;
    unfold mbind at 1; unfold M_bind at 1; unfold read at 1;
    (destruct (creds (this st)) as [cr |] eqn:Hcreds;
     [ unfold mbind, M_bind;
       rewrite (oAuth_spec issue), (updateAccessToken_spec issue), Hcreds;
       cbv zeta; destruct (issue _ _) as [tok | e];
       cbn [token this calls userAgent]; reflexivity
     | reflexivity ]).
Qed.

(** X10.  A client without credentials: a request makes one call, to the
    anonymous gateway, with the client's user agent and the caller's
    arguments; its outcome is that call's; the token manager is not called
    and the client is left as it was. *)
Theorem request_without_credentials (i : Invocation) (st : State) :
  creds (this st) = None ->
  invoke i st =
    (answer (anon_call i st) (calls st),
     {| this := this st; calls := (calls st ++ [anon_call i st])%list |}).
Proof. intros Hcreds. rewrite invoke_spec, Hcreds. reflexivity. Qed.

(** X11.  When the token manager rejects, the request rejects with the same
    reason: no gateway is called, the anonymous one included, and the client
    keeps the token it had. *)
Theorem request_token_failure (i : Invocation) (st : State) (cr : Credentials) (e : exn) :
  creds (this st) = Some cr ->
  issue (token_call st cr) (calls st) = Throw e ->
  invoke i st =
    (Throw e, {| this := this st; calls := (calls st ++ [token_call st cr])%list |}).
Proof. intros Hcreds Hissue. rewrite invoke_spec, Hcreds, Hissue. reflexivity. Qed.

(** X12.  When the token manager gives a token, the client stores it and
    hands its access value, with its own user agent, to the authenticated
    gateway; the outcome of the request is that gateway's answer.  The
    descriptor, the credentials and the user agent stay as they were. *)
Theorem request_with_token (i : Invocation) (st : State) (cr : Credentials) (tok : Token) :
  creds (this st) = Some cr ->
  issue (token_call st cr) (calls st) = Normal tok ->
  let '(r, st') := invoke i st in
  r = answer (oauth_call i st tok) (calls st ++ [token_call st cr])%list /\
  calls st' = (calls st ++ [token_call st cr; oauth_call i st tok])%list /\
  token (this st') = Some tok /\
  auth (this st') = auth (this st) /\
  creds (this st') = creds (this st) /\
  userAgent (this st') = userAgent (this st).
Proof.
  intros Hcreds Hissue. rewrite invoke_spec, Hcreds, Hissue.
  cbn [this calls token auth creds userAgent]. rewrite <- app_assoc.
  repeat split.
Qed.

(** X13.  The token is handed on: after a request for which the token
    manager gave [tok], the next request calls the token manager with [tok]
    as the current token, and with the same descriptor and credentials. *)
Theorem token_handed_to_next_request
  (i i' : Invocation) (st : State) (cr : Credentials) (tok : Token) :
  creds (this st) = Some cr ->
  issue (token_call st cr) (calls st) = Normal tok ->
  List.filter is_token_call (new_calls (invoke i') (snd (invoke i st))) =
    [UpdateAccessToken (userAgent (this st)) (Some tok) cr (auth (this st))].
Proof.
  intros Hcreds Hissue. rewrite (token_calls_spec issue answer).
  rewrite invoke_spec, Hcreds, Hissue. reflexivity.
Qed.

Lemma client_step_spec (step : ClientStep) (st : State) :
  let st' := client_step issue answer step st in
  creds (this st') = creds (this st) /\
  userAgent (this st') = userAgent (this st) /\
  exists new,
    calls st' = (calls st ++ new)%list /\
    Forall (call_fits (creds (this st))) new.
Proof.
  cbv zeta. destruct step as [i | a]; cbn [client_step].
  - rewrite invoke_spec.
    destruct (creds (this st)) as [cr |] eqn:Hcreds.
    + destruct (issue _ _) as [tok | e]; cbn [snd this calls creds userAgent];
        (split; [rewrite ?Hcreds; reflexivity |]); (split; [reflexivity |]).
      * exists [token_call st cr; oauth_call i st tok].
        rewrite <- app_assoc. split; [reflexivity |].
        repeat constructor; discriminate.
      * exists [token_call st cr]. split; [reflexivity |].
        repeat constructor; discriminate.
    + cbn [snd this calls]. split; [rewrite ?Hcreds; reflexivity |].
      split; [reflexivity |].
      exists [anon_call i st]. split; [reflexivity |]. repeat constructor.
  - rewrite (reAuth_spec issue). cbv zeta.
    destruct (creds (this st)) as [cr |] eqn:Hcreds.
    + destruct (issue _ _) as [tok | e]; cbn [snd this calls creds userAgent];
        (split; [rewrite ?Hcreds; reflexivity |]); (split; [reflexivity |]);
        (eexists; split; [reflexivity |]); repeat constructor; discriminate.
    + cbn [snd this calls creds userAgent]. split; [rewrite ?Hcreds; reflexivity |].
      split; [reflexivity |].
      exists []. rewrite app_nil_r. split; [reflexivity | constructor].
Qed.

(** X14.  Whatever requests and re-authorizations are made of a client, and
    whatever they come to, its credentials and its user agent never change,
    and no call is ever taken back from the record of its calls. *)
Theorem credentials_never_change (steps : list ClientStep) (st : State) :
  let st' := client_steps issue answer steps st in
  creds (this st') = creds (this st) /\
  userAgent (this st') = userAgent (this st) /\
  exists new, calls st' = (calls st ++ new)%list.
Proof.
  cbv zeta. revert st. induction steps as [| step steps IH]; intros st.
  - repeat split. exists []. symmetry. apply app_nil_r.
  - cbn [client_steps fold_left].
    destruct (client_step_spec step st) as (Hcreds & Hagent & new & Hcalls & _).
    destruct (IH (client_step issue answer step st)) as (Hcreds' & Hagent' & new' & Hcalls').
    unfold client_steps in *.
    rewrite Hcreds', Hagent', Hcalls', Hcreds, Hagent, Hcalls.
    repeat split. exists (new ++ new')%list. symmetry. apply app_assoc.
Qed.

(** X15.  The gateway of a client is settled by its credentials for good:
    over any run of requests and re-authorizations, a client without
    credentials calls nothing but the anonymous gateway (never the token
    manager, never the authenticated gateway), and a client with credentials
    never calls the anonymous gateway. *)
Theorem gateway_settled_for_good (steps : list ClientStep) (st : State) :
  exists new,
    calls (client_steps issue answer steps st) = (calls st ++ new)%list /\
    Forall (call_fits (creds (this st))) new.
Proof.
  revert st. induction steps as [| step steps IH]; intros st.
  - exists []. split; [symmetry; apply app_nil_r | constructor].
  - cbn [client_steps fold_left].
    destruct (client_step_spec step st) as (Hcreds & _ & new & Hcalls & Hfits).
    destruct (IH (client_step issue answer step st)) as (new' & Hcalls' & Hfits').
    unfold client_steps in *.
    exists (new ++ new')%list. split.
    + rewrite Hcalls', Hcalls. symmetry. apply app_assoc.
    + apply Forall_app. split; [exact Hfits |]. rewrite <- Hcreds. exact Hfits'.
Qed.

Lemma fromAuthCode_run
  (opts : ClientOptions.t) (code redirectUri : string) (log : list Call) :
  fromAuthCode opts code redirectUri log =
    match ClientOptions.creds opts with
    | None => (Throw (Thrown "No creds"), log)
    | Some cr =>
        let call := TokenFromCode code cr (ClientOptions.userAgent opts) redirectUri in
        match issue call log with
        | Throw e => (Throw e, (log ++ [call])%list)
        | Normal tok =>
            (Normal {| auth := Some (TokenAuth (refresh tok));
                       creds := Some cr;
                       token := Some tok;
                       userAgent := ClientOptions.userAgent opts |},
             (log ++ [call])%list)
        end
    end.
Proof.
  unfold Client.fromAuthCode.
  destruct (ClientOptions.creds opts) as [cr |] eqn:Hcreds; [| reflexivity].
  cbv zeta. unfold mbind, M_bind, call_token, new.
  cbn [this calls userAgent].
  destruct (issue _ log) as [tok | e]; [| reflexivity].
  unfold set_token, set_auth, read. cbn [this calls auth creds token userAgent].
  rewrite Hcreds. reflexivity.
Qed.

(** X16.  [getRefreshToken] reports the refresh value of the token the
    client holds: nothing for a client just made; after [fromAuthCode], the
    refresh value of the token the exchange gave, which is also the one in
    the client's descriptor; after a request for which the token manager
    gave a token, the refresh value of that token. *)
Theorem getRefreshToken_reports_latest
  (opts : ClientOptions.t) (code redirectUri : string) (log : list Call)
  (i : Invocation) (st : State) :
  getRefreshToken (new opts) = None /\
  (forall client log',
     fromAuthCode opts code redirectUri log = (Normal client, log') ->
     exists cr tok,
       ClientOptions.creds opts = Some cr /\
       issue (TokenFromCode code cr (ClientOptions.userAgent opts) redirectUri) log
       = Normal tok /\
       getRefreshToken client = refresh tok /\
       auth client = Some (TokenAuth (getRefreshToken client))) /\
  (forall cr tok,
     creds (this st) = Some cr ->
     issue (token_call st cr) (calls st) = Normal tok ->
     getRefreshToken (this (snd (invoke i st))) = refresh tok).
Proof.
  split; [reflexivity |]. split.
  - intros client log'.
    pose proof (fromAuthCode_run opts code redirectUri log) as Hrun.
    destruct (ClientOptions.creds opts) as [cr |]; [| rewrite Hrun; discriminate].
    cbv zeta in Hrun. destruct (issue _ log) as [tok | e] eqn:Hissue; rewrite Hrun;
      [| discriminate].
    intros H. injection H as <- <-. exists cr, tok.
    split; [reflexivity |]. split; [exact Hissue |]. split; reflexivity.
  - intros cr tok Hcreds Hissue. rewrite invoke_spec, Hcreds, Hissue. reflexivity.
Qed.

End ClientMore.

(** ** [makeAuthUrl] *)

Lemma all_chars_app (P : ascii -> bool) (a b : string) :
  all_chars P (a +:+ b) = all_chars P a && all_chars P b.
Proof.
  induction a as [| x a IH]; [reflexivity |].
  rewrite append_cons. cbn [all_chars]. rewrite IH. apply andb_assoc.
Qed.

Lemma occurrences_app (c : ascii) (a b : string) :
  occurrences c (a +:+ b) = (occurrences c a + occurrences c b)%nat.
Proof.
  induction a as [| x a IH]; [reflexivity |].
  rewrite append_cons. cbn [occurrences]. rewrite IH. lia.
Qed.

Lemma occurrences_none (P : ascii -> bool) (c : ascii) (s : string) :
  P c = false -> all_chars P s = true -> occurrences c s = 0%nat.
Proof.
  intros Hc. induction s as [| x s IH]; [reflexivity |].
  cbn [all_chars occurrences]. intros H. apply andb_prop in H as [Hx Hs].
  destruct (Ascii.eqb_spec x c) as [-> | _]; [congruence |].
  rewrite (IH Hs). reflexivity.
Qed.

Lemma urlencode_code_unit (c : ascii) :
  forallb (fun b => all_chars is_component_char (urlencode_byte b)) (utf8_bytes c) = true.
Proof. destruct c as [[] [] [] [] [] [] [] []]; vm_compute; reflexivity. Qed.

(** A serialized component is made of letters, digits, [*], [-], [.], [_],
    [%] and [+] only. *)
Lemma urlencode_chars (s : string) : all_chars is_component_char (urlencode s) = true.
Proof.
  induction s as [| c s IH]; [reflexivity |].
  cbn [urlencode]. pose proof (urlencode_code_unit c) as Hc.
  induction (utf8_bytes c) as [| b bytes IHb]; [exact IH |].
  cbn [forallb] in Hc. apply andb_prop in Hc as [Hb Hbytes].
  cbn [fold_right]. rewrite all_chars_app, Hb. apply (IHb Hbytes).
Qed.

Lemma urlencode_occurrences (c : ascii) (s : string) :
  is_component_char c = false -> occurrences c (urlencode s) = 0%nat.
Proof.
  intros Hc. apply (occurrences_none is_component_char); [exact Hc |].
  apply urlencode_chars.
Qed.

Lemma component_is_query (s : string) :
  all_chars is_component_char s = true -> all_chars is_query_char s = true.
Proof.
  induction s as [| x s IH]; [reflexivity |].
  cbn [all_chars]. intros H. apply andb_prop in H as [Hx Hs].
  unfold is_query_char at 1. rewrite Hx, (IH Hs). reflexivity.
Qed.

(** X17.  The authorization URL keeps its shape whatever it is made from:
    it is the fixed address followed by a query in which [&] occurs five
    times and [=] six times, so that the query always falls into the same
    six fields, and which otherwise holds nothing but letters, digits, [*],
    [-], [.], [_], [%] and [+].  No client id, scope, state or redirect URI
    can put a space, a [#], a [?] or a field of its own into the URL. *)
Theorem makeAuthUrl_shape
  (clientId : string) (scopes : list string) (redirectUri : string)
  (state : option string) (temporary : option bool) :
  exists query,
    Client.makeAuthUrl clientId scopes redirectUri state temporary
    = "https://www.reddit.com/api/v1/authorize?" +:+ query /\
    occurrences "&" query = 5%nat /\
    occurrences "=" query = 6%nat /\
    all_chars is_query_char query = true.
Proof.
  unfold Client.makeAuthUrl. eexists. split; [reflexivity |].
  unfold URLSearchParams_toString. cbn [List.map join_with fst snd].
  split; [| split].
  - rewrite !occurrences_app, !urlencode_occurrences by reflexivity. reflexivity.
  - rewrite !occurrences_app, !urlencode_occurrences by reflexivity. reflexivity.
  - rewrite !all_chars_app, !(component_is_query _ (urlencode_chars _)). reflexivity.
Qed.

Example makeAuthUrl_sample :
  Client.makeAuthUrl "cid" ["identity"; "read"] "https://cb" None None
  = "https://www.reddit.com/api/v1/authorize?client_id=cid&response_type=code&state=snoots&redirect_uri=https%3A%2F%2Fcb&duration=permanent&scope=identity+read".
Proof. vm_compute. reflexivity. Qed.

(** ** The voteable controls *)

Section VoteableFacts.

Import Gateway.

Variable namespace : string -> string.
Variable string_gt_zero : string -> bool.
Variable auth : t -> completion (option Auth).
Variable mapPath : string -> string.
Variable got : Request -> Reply.
Variable now : Z.

#[local] Abbreviation unwrap := (Gateway.unwrap string_gt_zero).
#[local] Abbreviation buildOptions := (Gateway.buildOptions auth).
#[local] Abbreviation post := (Gateway.post string_gt_zero auth mapPath got now).
#[local] Abbreviation gateway_post :=
  (VoteableControls.gateway_post string_gt_zero auth mapPath got now).
#[local] Abbreviation perform :=
  (VoteableControls.perform namespace string_gt_zero auth mapPath got now).

Lemma gateway_post_run (path : string) (data : Data) (st : State) :
  match auth (self st) with
  | Throw e => gateway_post path data st = (Throw e, st)
  | Normal _ =>
      exists baseOptions,
        GotOptions.searchParams baseOptions =
          <[ "api_type" := VStr "json" ]> (<[ "raw_json" := VNum (Fin 1) ]> ∅) /\
        GotOptions.form baseOptions = None /\
        GotOptions.json baseOptions = None /\
        let request :=
          {| method := POST; url := mapPath path;
             options := merge baseOptions
                          (Form (data ∪ {[ "api_type" := VStr "json" ]})) |} in
        gateway_post path data st =
          match got request with
          | NoReply reason =>
              (Throw (Rejected reason),
               {| self := self st; sent := (sent st ++ [request])%list |})
          | Replied response decoded =>
              (_ ← decoded ≫= unwrap; Normal tt,
               {| self := snd (updateRatelimit now response (self st));
                  sent := (sent st ++ [request])%list |})
          end
  end.
Proof.
  pose proof (buildOptions_spec auth ∅ st) as Hbuild.
  destruct (auth (self st)) as [a | e] eqn:Hauth.
  - destruct Hbuild as (o & Hbuild & Hsearch & Hform & Hjson).
    exists o. split; [exact Hsearch |]. split; [exact Hform |]. split; [exact Hjson |].
    cbv zeta. unfold VoteableControls.gateway_post, mbind at 1, G_bind at 1.
    rewrite (proj1 (proj2 (outcome_of_request string_gt_zero auth mapPath got now
                             path data ∅ st o Hbuild))).
    destruct (got _) as [reason | response decoded]; [reflexivity |].
    destruct (decoded ≫= unwrap); reflexivity.
  - unfold VoteableControls.gateway_post, mbind at 1, G_bind at 1.
    rewrite (proj1 (proj2 (rejected_auth string_gt_zero auth mapPath got now
                             path data ∅ st e Hauth))).
    reflexivity.
Qed.

(** The payload an action hands to [gateway.post] has no [api_type] of its
    own. *)
Ltac payload_lookup :=
  repeat (rewrite lookup_union || rewrite lookup_insert_eq
          || (rewrite lookup_insert_ne by discriminate)
          || rewrite lookup_empty || rewrite lookup_singleton_eq
          || (rewrite lookup_singleton_ne by discriminate));
  reflexivity.

(** X18.  Every voteable action is one POST through the gateway, or none
    when [auth()] rejects.  The request goes to the path of the action,
    carries a form and no JSON body, and its query is exactly [raw_json=1]
    and [api_type=json].  No action brings an [api_type] of its own, so the
    form always has [api_type=json]; it names the item, as the namespaced
    id, under [id] ([thing_id] for an edit), except for a gild, whose item
    is in the path and whose form holds the marker alone. *)
Theorem voteable_request (a : VoteableControls.Action) (st : State) :
  match auth (self st) with
  | Throw e => perform a st = (Throw e, st)
  | Normal _ =>
      exists options form,
        new_requests (perform a) st =
          [{| method := POST; url := mapPath (action_path namespace a);
              options := options |}] /\
        GotOptions.searchParams options =
          <[ "api_type" := VStr "json" ]> (<[ "raw_json" := VNum (Fin 1) ]> ∅) /\
        GotOptions.form options = Some form /\
        GotOptions.json options = None /\
        form !! "api_type" = Some (VStr "json") /\
        match a with
        | VoteableControls.Gild _ => form = {[ "api_type" := VStr "json" ]}
        | VoteableControls.Edit _ _ =>
            form !! "thing_id" = Some (VStr (namespace (action_id a)))
        | _ => form !! "id" = Some (VStr (namespace (action_id a)))
        end
  end.
Proof.
  assert (Hgen : forall path data,
             perform a = gateway_post path data ->
             match auth (self st) with
             | Throw e => perform a st = (Throw e, st)
             | Normal _ =>
                 exists options,
                   new_requests (perform a) st =
                     [{| method := POST; url := mapPath path; options := options |}] /\
                   GotOptions.searchParams options =
                     <[ "api_type" := VStr "json" ]> (<[ "raw_json" := VNum (Fin 1) ]> ∅) /\
                   GotOptions.form options = Some (data ∪ {[ "api_type" := VStr "json" ]}) /\
                   GotOptions.json options = None
             end).
  { intros path data ->. pose proof (gateway_post_run path data st) as Hrun.
    destruct (auth (self st)) as [x | e]; [| exact Hrun].
    destruct Hrun as (o & Hsearch & Hform & Hjson & Hrun). cbv zeta in Hrun.
    eexists. unfold new_requests. rewrite Hrun.
    split; [| split; [| split]].
    - destruct (got _); cbn [snd sent]; rewrite drop_app_length; reflexivity.
    - exact Hsearch.
    - reflexivity.
    - exact Hjson. }
  destruct a;
    (match goal with
     | |- context [perform ?act] =>
         let H := fresh "H" in
         pose proof (Hgen _ _ eq_refl) as H; cbn [action_path action_id] in *;
         destruct (auth (self st)); [| exact H];
         destruct H as (o & Hnew & Hsearch & Hform & Hjson);
         exists o; eexists;
         (split; [exact Hnew |]); (split; [exact Hsearch |]);
         (split; [exact Hform |]); (split; [exact Hjson |]);
         split; payload_lookup
     end).
Qed.

(** X19.  What a voteable action comes to is settled by the reply to the
    one request it sends: no reply rejects; on a reply the rate-limit
    snapshot is updated and the body goes through [unwrap], whose error is
    the action's error and whose value is dropped. *)
Theorem voteable_outcome (a : VoteableControls.Action) (st : State) (request : Request) :
  new_requests (perform a) st = [request] ->
  match got request with
  | NoReply reason =>
      perform a st =
        (Throw (Rejected reason),
         {| self := self st; sent := (sent st ++ [request])%list |})
  | Replied response decoded =>
      perform a st =
        (_ ← decoded ≫= unwrap; Normal tt,
         {| self := snd (updateRatelimit now response (self st));
            sent := (sent st ++ [request])%list |})
  end.
Proof.
  assert (Hgen : forall path data,
             perform a = gateway_post path data ->
             new_requests (perform a) st = [request] ->
             match got request with
             | NoReply reason =>
                 perform a st =
                   (Throw (Rejected reason),
                    {| self := self st; sent := (sent st ++ [request])%list |})
             | Replied response decoded =>
                 perform a st =
                   (_ ← decoded ≫= unwrap; Normal tt,
                    {| self := snd (updateRatelimit now response (self st));
                       sent := (sent st ++ [request])%list |})
             end).
  { intros path data ->. pose proof (gateway_post_run path data st) as Hrun.
    unfold new_requests.
    destruct (auth (self st)) as [x | e].
    - destruct Hrun as (o & _ & _ & _ & Hrun). cbv zeta in Hrun. rewrite Hrun.
      intros Hnew.
      assert (Hrequest : request =
                {| method := POST; url := mapPath path;
                   options := merge o (Form (data ∪ {[ "api_type" := VStr "json" ]})) |}).
      { revert Hnew. destruct (got _); cbn [snd sent]; rewrite drop_app_length;
          intros H; injection H as <-; reflexivity. }
      rewrite <- Hrequest. destruct (got request); reflexivity.
    - rewrite Hrun. cbn [snd]. rewrite drop_all. discriminate. }
  destruct a; exact (Hgen _ _ eq_refl).
Qed.

End VoteableFacts.

(** ** The further properties on sample inputs *)

Lemma unwrap_wrapper_precedence_witness :
  Gateway.unwrap Sample.string_gt_zero
    (obj [("json", obj [("errors", VArr []); ("data", VStr "ok")]);
          ("error", VStr "404")])
  = Gateway.unwrap Sample.string_gt_zero
      (VObj {[ "json" := obj [("errors", VArr []); ("data", VStr "ok")] ]}).
Proof.
  apply (unwrap_wrapper_precedence Sample.string_gt_zero
           (list_to_map [("json", obj [("errors", VArr []); ("data", VStr "ok")]);
                         ("error", VStr "404")])).
  reflexivity.
Defined.

Lemma unwrap_wrapper_without_errors_witness :
  Gateway.unwrap Sample.string_gt_zero (obj [("json", obj [("data", VStr "ok")])])
  = Throw TypeError.
Proof.
  apply (unwrap_wrapper_without_errors Sample.string_gt_zero
           (list_to_map [("json", obj [("data", VStr "ok")])])
           (obj [("data", VStr "ok")])).
  - reflexivity.
  - left. reflexivity.
Defined.

Lemma unwrap_error_never_returned_witness :
  Gateway.unwrap Sample.string_gt_zero
    (obj [("error", VNum (Fin 404)); ("message", VStr "Not Found")])
  <> Normal (obj [("error", VNum (Fin 404)); ("message", VStr "Not Found")]).
Proof.
  apply (unwrap_error_never_returned Sample.string_gt_zero
           (list_to_map [("error", VNum (Fin 404)); ("message", VStr "Not Found")])
           (VNum (Fin 404))); reflexivity.
Defined.

Lemma unwrap_returns_witness :
  (VStr "ok" = obj [("json", obj [("errors", VArr []); ("data", VStr "ok")])] /\
   forall m, obj [("json", obj [("errors", VArr []); ("data", VStr "ok")])] = VObj m ->
             m !! "json" = None /\ m !! "error" = None) \/
  (exists m w,
     obj [("json", obj [("errors", VArr []); ("data", VStr "ok")])] = VObj m /\
     m !! "json" = Some w /\ Get w "data" = Normal (VStr "ok")).
Proof.
  apply (unwrap_returns Sample.string_gt_zero
           (obj [("json", obj [("errors", VArr []); ("data", VStr "ok")])]) (VStr "ok")).
  reflexivity.
Defined.

Lemma updateRatelimit_leading_integer_witness :
  Gateway.rateLimit
    (snd (Gateway.updateRatelimit 1700000000000 Scenario.reply (Gateway.self Sample.gateway)))
  = Some {| Gateway.remaining := Fin 598; Gateway.reset := Fin 1700000042000 |}.
Proof.
  apply (updateRatelimit_leading_integer 1700000000000 598 42 "" ".0" " " ""
           Scenario.reply (Gateway.self Sample.gateway)); reflexivity.
Defined.

Lemma buildOptions_credentials_witness :
  exists options,
    Gateway.buildOptions Scenario.auth_bearer ∅ Sample.gateway
    = (Normal options, Sample.gateway) /\
    Gateway.GotOptions.headers options !! "Authorization" = Some "bearer access-1" /\
    Gateway.GotOptions.username options = None /\
    Gateway.GotOptions.password options = None.
Proof.
  destruct (buildOptions_credentials Scenario.auth_bearer ∅ Sample.gateway
              (Some (Gateway.Bearer "access-1")) eq_refl)
    as (options & Hbuild & _ & _ & _ & Hheader & Huser & Hpass).
  exists options. repeat split; assumption.
Defined.

Lemma auth_rejection_sends_nothing_witness :
  Gateway.get Sample.string_gt_zero Scenario.auth_rejecting Sample.mapPath
    Scenario.got_replying 0 "api/v1/me" ∅ Sample.gateway
  = (Throw (Rejected "token refused"), Sample.gateway).
Proof.
  exact (proj1 (auth_rejection_sends_nothing Sample.string_gt_zero Scenario.auth_rejecting
                  Sample.mapPath Scenario.got_replying 0 "api/v1/me" ∅ ∅ Sample.gateway
                  (Rejected "token refused") eq_refl)).
Defined.

Lemma request_outcome_witness :
  let '(r, st) :=
    Gateway.get Sample.string_gt_zero Sample.auth Sample.mapPath Scenario.got_replying
      1700000000000 "api/v1/me" ∅ Sample.gateway in
  r = Throw (Error "Reddit returned an error: RATELIMIT") /\
  Gateway.rateLimit (Gateway.self st)
  = Some {| Gateway.remaining := Fin 598; Gateway.reset := Fin 1700000042000 |}.
Proof.
  rewrite (proj1 (request_outcome Sample.string_gt_zero Sample.auth Sample.mapPath
                    Scenario.got_replying 1700000000000 "api/v1/me" ∅ ∅ Sample.gateway
                    Scenario.base_options eq_refl)).
  split; vm_compute; reflexivity.
Defined.

Lemma request_without_credentials_witness :
  Client.invoke Sample.issue Sample.answer (Client.InvokeGet "r/rust/about" ∅)
    Scenario.anonymous_client
  = (Normal VNull,
     {| Client.this := Client.this Scenario.anonymous_client;
        Client.calls := [Client.Anon Client.Get "snoots-test" "r/rust/about" None ∅] |}).
Proof.
  exact (request_without_credentials Sample.issue Sample.answer
           (Client.InvokeGet "r/rust/about" ∅) Scenario.anonymous_client eq_refl).
Defined.

Lemma request_token_failure_witness :
  Client.invoke Scenario.issue_rejecting Sample.answer (Client.InvokeGet "api/v1/me" ∅)
    Sample.client
  = (Throw (Rejected "invalid_grant"),
     {| Client.this := Client.this Sample.client;
        Client.calls := [token_call Sample.client Sample.credentials] |}).
Proof.
  exact (request_token_failure Scenario.issue_rejecting Sample.answer
           (Client.InvokeGet "api/v1/me" ∅) Sample.client Sample.credentials
           (Rejected "invalid_grant") eq_refl eq_refl).
Defined.

Lemma request_with_token_witness :
  let '(r, st') :=
    Client.invoke Sample.issue Sample.answer (Client.InvokeGet "api/v1/me" ∅)
      Sample.client in
  r = Normal VNull /\
  Client.token (Client.this st') = Some Sample.granted.
Proof.
  pose proof (request_with_token Sample.issue Sample.answer
                (Client.InvokeGet "api/v1/me" ∅) Sample.client Sample.credentials
                Sample.granted eq_refl eq_refl) as H.
  destruct (Client.invoke _ _ _ _) as [r st'].
  destruct H as (Hr & _ & Htoken & _). split; [exact Hr | exact Htoken].
Defined.

Lemma token_handed_to_next_request_witness :
  List.filter Client.is_token_call
    (new_calls (Client.invoke Sample.issue Sample.answer (Client.InvokePost "api/vote" ∅ ∅))
       (snd (Client.invoke Sample.issue Sample.answer (Client.InvokeGet "api/v1/me" ∅)
               Sample.client)))
  = [Client.UpdateAccessToken "snoots-test" (Some Sample.granted) Sample.credentials
       (Some (Client.UsernameAuth "user" "password"))].
Proof.
  exact (token_handed_to_next_request Sample.issue Sample.answer
           (Client.InvokeGet "api/v1/me" ∅) (Client.InvokePost "api/vote" ∅ ∅)
           Sample.client Sample.credentials Sample.granted eq_refl eq_refl).
Defined.

Lemma voteable_outcome_witness :
  fst (VoteableControls.perform Scenario.namespace Sample.string_gt_zero Sample.auth
         Sample.mapPath Scenario.got_replying 1700000000000
         (VoteableControls.Upvote "abc") Sample.gateway)
  = Throw (Error "Reddit returned an error: RATELIMIT").
Proof.
  rewrite (voteable_outcome Scenario.namespace Sample.string_gt_zero Sample.auth
             Sample.mapPath Scenario.got_replying 1700000000000
             (VoteableControls.Upvote "abc") Sample.gateway Scenario.upvote_request).
  - vm_compute. reflexivity.
  - vm_compute. reflexivity.
Defined.

Example voteable_upvote_sample :
  new_requests
    (VoteableControls.perform Scenario.namespace Sample.string_gt_zero Sample.auth
       Sample.mapPath Sample.got 0 (VoteableControls.Upvote "abc"))
    Sample.gateway
  = [Scenario.upvote_request].
Proof. vm_compute. reflexivity. Qed.
